(** * Quickmart grocery backend: cart and checkout routes of [src/App.js]

    A shallow embedding of the three authenticated routes of the Express
    application ([GET /api/cart], [POST /api/cart], [POST /api/order]) over
    an explicit model of the MongoDB collections they read and write.

    Modelling conventions.
    - A JavaScript [Number] is a binary64 floating-point number, Rocq's
      primitive [float], with its rounding, its infinities and [NaN].  A
      Mongoose [Number] path refuses [NaN]: the document then fails to save.
    - A schema field that is not [required] may be absent ([None]).
    - The [quantity] of a request is a JSON number, or another JSON value
      given by what the route observes of it (see [Quantity]).
    - A Mongoose document collection is a [list] of documents in insertion
      order (carts, orders) or a finite map keyed by [_id] (products).
    - A user id is the identifier [authMiddleware] leaves in [req.user.id].
    - An [async] route handler is a function over a [World]: the database,
      the schedule of persistence calls that will be rejected, and the
      chronological record of the database states it has committed.
      A thrown exception (a rejected call, a [CastError], a [TypeError] on a
      [null] dereference, a validation error) is the [None] outcome, turned
      into the route's 500 response by [try_catch]. *)

From stdpp Require Import gmap strings list fin_maps.
From Stdlib Require Import ZArith Ascii PrimFloat SpecFloat FloatOps FloatAxioms.

Local Open Scope string_scope.
Local Open Scope list_scope.
Local Open Scope Z_scope.

#[local] Set Warnings "-inexact-float".

(** ** ObjectId

    [mongoose.Schema.Types.ObjectId].  An id is kept as its canonical
    spelling, the one [toString()] prints: 24 lowercase hexadecimal digits.
    [castObjectId] is the cast Mongoose applies to a request string wherever
    the schema expects an ObjectId ([findById], an [items.productId] pushed
    into a cart): a string of 24 hexadecimal digits of either case is read,
    anything else raises a [CastError].  (Drivers that also read a
    12-character string as twelve raw bytes are not covered: such a string is
    treated here as one that does not cast.) *)

Record ObjectId := { toString : string }.

#[global] Instance ObjectId_eq_dec : EqDecision ObjectId.
Proof. solve_decision. Defined.

#[global] Instance ObjectId_countable : Countable ObjectId.
Proof.
  apply (inj_countable' toString Build_ObjectId).
  by intros [s].
Defined.

Definition in_range (lo hi : nat) (c : ascii) : bool :=
  ((lo <=? nat_of_ascii c) && (nat_of_ascii c <=? hi))%nat.

Definition is_hex (c : ascii) : bool :=
  in_range 48 57 c || in_range 97 102 c || in_range 65 70 c.

Definition lower_ascii (c : ascii) : ascii :=
  if in_range 65 90 c then ascii_of_nat (nat_of_ascii c + 32) else c.

Fixpoint all_hex (s : string) : bool :=
  match s with
  | EmptyString => true
  | String c r => is_hex c && all_hex r
  end.

Fixpoint toLowerCase (s : string) : string :=
  match s with
  | EmptyString => EmptyString
  | String c r => String (lower_ascii c) (toLowerCase r)
  end.

Definition castObjectId (s : string) : option ObjectId :=
  if (String.length s =? 24)%nat && all_hex s
  then Some {| toString := toLowerCase s |}
  else None.

(** ** Schemas *)

(** [productSchema]: only [category] is required; an empty [category]
    stands for a missing one, which validation refuses alike. *)
Record Product := {
  product_name : option string;
  product_description : option string;
  product_price : option float;
  product_quantity : option float;
  product_image : option string;
  product_category : string;
}.

(** An element of [cartSchema.items] and of [orderSchema.items]. *)
Record LineItem := {
  item_productId : ObjectId;
  item_quantity : float;
}.

(** [cartSchema] *)
Record Cart := {
  cart_userId : string;
  cart_items : list LineItem;
}.

(** [orderSchema] *)
Record Order := {
  order_userId : string;
  order_items : list LineItem;
  order_totalPrice : float;
  order_address : string;
  order_paymentMethod : string;
  order_status : string;
}.

(** The three collections the routes touch.  A cart or an order is
    identified by its position in its collection. *)
Record Db := {
  products : gmap ObjectId Product;
  carts : list Cart;
  orders : list Order;
}.

(** The cast of a Mongoose [Number] path: [NaN] is refused. *)
Definition castNumber (n : float) : option float :=
  if is_nan n then None else Some n.

(** The [quantity] of a request body.  [Num n] is a JSON number.  Any other
    JSON value [v] (a string, a boolean, [null], an array, an object, or no
    value at all) is given by the two things the cart route observes of it:
    [added x], the number that [x + v] is stored as in a [Number] path, and
    [pushed], the number that [v] itself is stored as; [None] where the
    document fails validation (a failed cast, or [required]).  For the string
    "2", [added 3 = Some 32] (the concatenation "32") and [pushed = Some 2]. *)
Inductive Quantity :=
  | Num (n : float)
  | NotNum (added : float → option float) (pushed : option float).

(** [existingItem.quantity += quantity], as stored. *)
Definition addQuantity (x : float) (quantity : Quantity) : option float :=
  match quantity with
  | Num n => castNumber (x + n)
  | NotNum added _ => match added x with
                      | Some n => castNumber n
                      | None => None
                      end
  end.

(** The [quantity] of a pushed line, as stored. *)
Definition pushQuantity (quantity : Quantity) : option float :=
  match quantity with
  | Num n => castNumber n
  | NotNum _ pushed => match pushed with
                       | Some n => castNumber n
                       | None => None
                       end
  end.

(** ** Responses *)

(** A product document as [populate] loads it: its [_id] and its fields. *)
Record ProductDoc := {
  _id : ObjectId;
  doc : Product;
}.

(** A cart line after [populate("items.productId")]: the reference is
    replaced by the product document, or by [null] ([None]) when no product
    has that id. *)
Record PopulatedItem := {
  pop_productId : option ProductDoc;
  pop_quantity : float;
}.

(** One element of the array [GET /api/cart] answers with. *)
Record CartView := {
  view_id : ObjectId;
  view_name : option string;
  view_price : option float;
  view_quantity : float;
  view_image : option string;
}.

Inductive Body :=
  | Message (message : string)            (* { message } *)
  | Failure (message : string)            (* { message, error } *)
  | EmptyItems                            (* { items: [] } *)
  | CartLines (lines : list CartView)     (* [ {id, name, price, quantity, image}, ... ] *)
  | CartJson (cart : Cart)                (* the cart document *)
  | OrderPlaced (message : string) (order : Order).  (* { message, order } *)

Record Response := {
  status : Z;
  body : Body;
}.

(** The error kinds of the specification and the status code that signals
    each at the HTTP boundary. *)
Inductive ErrorKind := NotFound | InvalidState | Unauthorized | Internal.

Definition errorKind (r : Response) : option ErrorKind :=
  if status r =? 404 then Some NotFound
  else if status r =? 400 then Some InvalidState
  else if status r =? 401 then Some Unauthorized
  else if status r =? 500 then Some Internal
  else None.

(** ** Handlers: state, rejected calls, exceptions *)

Record World := {
  db : Db;
  faults : list bool;   (* one flag per coming persistence call: [true] rejects it *)
  trace : list Db;      (* the states committed so far, oldest first *)
}.

Definition Handler (A : Type) : Type := World → option A * World.

Definition ret {A} (a : A) : Handler A := λ w, (Some a, w).

Definition throw {A} : Handler A := λ w, (None, w).

Definition bind {A B} (m : Handler A) (k : A → Handler B) : Handler B :=
  λ w, match m w with
       | (Some a, w') => k a w'
       | (None, w') => (None, w')
       end.

Notation "'let*' x ':=' m 'in' k" := (bind m (λ x, k))
  (at level 10, x pattern, m at level 100, k at level 200).

(** An exception raised by a synchronous expression. *)
Definition orThrow {A} (o : option A) : Handler A :=
  match o with
  | Some a => ret a
  | None => throw
  end.

(** Every [await]ed database call first meets the fault schedule: it takes
    the next flag, and is rejected when the flag is set. *)
Definition rejected (fs : list bool) : bool :=
  match fs with
  | true :: _ => true
  | _ => false
  end.

Definition await : Handler unit :=
  λ w, (if rejected (faults w) then None else Some tt,
        {| db := db w; faults := tail (faults w); trace := trace w |}).

Definition query {A} (q : Db → option A) : Handler A :=
  let* _ := await in λ w, (q (db w), w).

Definition commit (f : Db → Db) : Handler unit :=
  let* _ := await in
  λ w, (Some tt, {| db := f (db w); faults := faults w; trace := trace w ++ [f (db w)] |}).

(** [try { ... } catch (error) { res.status(500).json(...) }] *)
Definition try_catch (body : Handler Response) (onError : Response) : World → Response * World :=
  λ w, match body w with
       | (Some r, w') => (r, w')
       | (None, w') => (onError, w')
       end.

Definition json (code : Z) (b : Body) : Response := {| status := code; body := b |}.

(** A request served from database [d] under fault schedule [fs]. *)
Definition serve (route : World → Response * World) (fs : list bool) (d : Db) : Response * World :=
  route {| db := d; faults := fs; trace := [] |}.

(** ** Model queries and document operations *)

(** [Cart.findOne({ userId })]: the first cart of the user, with its position. *)
Definition findOne (userId : string) (cs : list Cart) : option (nat * Cart) :=
  list_find (λ c, cart_userId c = userId) cs.

(** [.populate("items.productId")] *)
Definition populate (ps : gmap ObjectId Product) (items : list LineItem) : list PopulatedItem :=
  map (λ item, {| pop_productId := (λ p, {| _id := item_productId item; doc := p |}) <$> ps !! item_productId item;
                  pop_quantity := item_quantity item |}) items.

(** [cart.save()]: a loaded document replaces the stored one at its
    position, a new document is inserted at the end of the collection. *)
Definition saveCart (slot : option nat) (c : Cart) (d : Db) : Db :=
  {| products := products d;
     carts := match slot with
              | Some i => <[i := c]> (carts d)
              | None => carts d ++ [c]
              end;
     orders := orders d |}.

(** [order.save()] *)
Definition saveOrder (o : Order) (d : Db) : Db :=
  {| products := products d; carts := carts d; orders := orders d ++ [o] |}.

(** ** GET /api/cart *)

(** A cart document as [findOne(...).populate(...)] loads it. *)
Record PopulatedCart := {
  pc_slot : nat;
  pc_userId : string;
  pc_items : list PopulatedItem;
}.

Definition findOnePopulated (userId : string) (d : Db) : option PopulatedCart :=
  (λ '(i, c), {| pc_slot := i; pc_userId := cart_userId c;
                 pc_items := populate (products d) (cart_items c) |})
    <$> findOne userId (carts d).

(** The arrow function given to [cart.items.map]: reading [_id] of a [null]
    product is a [TypeError]. *)
Definition cartLine (item : PopulatedItem) : option CartView :=
  match pop_productId item with
  | None => None
  | Some p => Some {| view_id := _id p;
                      view_name := product_name (doc p);
                      view_price := product_price (doc p);
                      view_quantity := pop_quantity item;
                      view_image := product_image (doc p) |}
  end.

Fixpoint items_map (items : list PopulatedItem) : option (list CartView) :=
  match items with
  | [] => Some []
  | item :: rest =>
      match cartLine item with
      | None => None
      | Some v => match items_map rest with
                  | None => None
                  | Some vs => Some (v :: vs)
                  end
      end
  end.

Definition getCart (userId : string) : World → Response * World :=
  try_catch
    (let* cart := query (λ d, Some (findOnePopulated userId d)) in
     match cart with
     | None => ret (json 200 EmptyItems)
     | Some cart =>
         let* lines := orThrow (items_map (pc_items cart)) in
         ret (json 200 (CartLines lines))
     end)
    (json 500 (Failure "Error fetching cart")).

(** ** POST /api/cart *)

(** [Product.findById(productId)]: the outer [None] is the [CastError] of a
    string that is no ObjectId, the inner one is the [null] of a miss. *)
Definition findById (productId : string) (d : Db) : option (option ProductDoc) :=
  match castObjectId productId with
  | None => None
  | Some id => Some ((λ p, {| _id := id; doc := p |}) <$> products d !! id)
  end.

(** [cart.items.find(item => item.productId.toString() === productId)] *)
Definition find_item (productId : string) (items : list LineItem) : option (nat * LineItem) :=
  list_find (λ item, toString (item_productId item) = productId) items.

(** The merge step of the route: [existingItem.quantity += quantity], or
    [cart.items.push({ productId, quantity })] with the pushed reference cast
    to an ObjectId.  [None] is a cart that [cart.save()] refuses to
    validate. *)
Definition merge_item (productId : string) (quantity : Quantity) (items : list LineItem)
  : option (list LineItem) :=
  match find_item productId items with
  | Some (j, existingItem) =>
      match addQuantity (item_quantity existingItem) quantity with
      | Some merged =>
          Some (<[j := {| item_productId := item_productId existingItem;
                          item_quantity := merged |}]> items)
      | None => None
      end
  | None =>
      match castObjectId productId, pushQuantity quantity with
      | Some id, Some pushed =>
          Some (items ++ [{| item_productId := id; item_quantity := pushed |}])
      | _, _ => None
      end
  end.

Definition addItem (userId productId : string) (quantity : Quantity)
  : World → Response * World :=
  try_catch
    (let* product := query (findById productId) in
     match product with
     | None => ret (json 404 (Message "Product not found"))
     | Some _ =>
         let* found := query (λ d, Some (findOne userId (carts d))) in
         let slot := fst <$> found in
         let cart := default {| cart_userId := userId; cart_items := [] |} (snd <$> found) in
         let* items := orThrow (merge_item productId quantity (cart_items cart)) in
         let cart := {| cart_userId := cart_userId cart; cart_items := items |} in
         let* _ := commit (saveCart slot cart) in
         ret (json 200 (CartJson cart))
     end)
    (json 500 (Failure "Error adding to cart")).

(** ** POST /api/order *)

(** [item.productId.price] as a factor: an absent price is [undefined],
    which multiplies to [NaN]. *)
Definition priceOf (p : ProductDoc) : float := default nan (product_price (doc p)).

(** The callback of [cart.items.reduce], folded from the left; reading
    [price] of a [null] product is a [TypeError]. *)
Fixpoint reduce (items : list PopulatedItem) (total : float) : option float :=
  match items with
  | [] => Some total
  | item :: rest =>
      match pop_productId item with
      | None => None
      | Some p => reduce rest (total + priceOf p * pop_quantity item)
      end
  end.

(** An order line cast from a populated cart line: the reference is the
    product document's [_id]; a [null] reference fails [required], a [NaN]
    quantity fails the cast. *)
Definition castItem (item : PopulatedItem) : option LineItem :=
  match pop_productId item, castNumber (pop_quantity item) with
  | Some p, Some quantity => Some {| item_productId := _id p; item_quantity := quantity |}
  | _, _ => None
  end.

Fixpoint castItems (items : list PopulatedItem) : option (list LineItem) :=
  match items with
  | [] => Some []
  | item :: rest =>
      match castItem item, castItems rest with
      | Some l, Some ls => Some (l :: ls)
      | _, _ => None
      end
  end.

(** [new Order({ userId, items, totalPrice, address, paymentMethod })], with
    the schema default of [status]; [None] is a document that fails
    validation when saved (a line that does not cast, a [NaN] total). *)
Definition newOrder (userId : string) (items : list PopulatedItem) (totalPrice : float)
    (address paymentMethod : string) : option Order :=
  match castItems items, castNumber totalPrice with
  | Some lines, Some total => Some {| order_userId := userId;
                                      order_items := lines;
                                      order_totalPrice := total;
                                      order_address := address;
                                      order_paymentMethod := paymentMethod;
                                      order_status := "Pending" |}
  | _, _ => None
  end.

Definition placeOrder (userId address paymentMethod : string) : World → Response * World :=
  try_catch
    (let* cart := query (λ d, Some (findOnePopulated userId d)) in
     match cart with
     | None => ret (json 400 (Message "Cart is empty"))
     | Some cart =>
         if (length (pc_items cart) =? 0)%nat
         then ret (json 400 (Message "Cart is empty"))
         else
           let* totalPrice := orThrow (reduce (pc_items cart) 0) in
           let* order := orThrow (newOrder userId (pc_items cart) totalPrice address paymentMethod) in
           let* _ := commit (saveOrder order) in
           let* _ := commit (saveCart (Some (pc_slot cart))
                               {| cart_userId := pc_userId cart; cart_items := [] |}) in
           ret (json 201 (OrderPlaced "Order placed successfully" order))
     end)
    (json 500 (Failure "Error placing order")).

(** ** A sample shop, used to run the routes on concrete requests *)

Definition P1 : ObjectId := {| toString := "64b7f0a1c2d3e4f5a6b7c8d1" |}.
Definition P2 : ObjectId := {| toString := "64b7f0a1c2d3e4f5a6b7c8d2" |}.
Definition P3 : ObjectId := {| toString := "64b7f0a1c2d3e4f5a6b7c8d3" |}.

Definition grocery (name : string) (price : float) : Product :=
  {| product_name := Some name; product_description := None; product_price := Some price;
     product_quantity := Some 10%float; product_image := Some name;
     product_category := "fruit" |}.

(** Two products on sale, nobody has a cart yet. *)
Definition shop : Db :=
  {| products := <[P1 := grocery "apple" 2]> (<[P2 := grocery "pear" 5]> ∅);
     carts := []; orders := [] |}.

Definition line (id : ObjectId) (quantity : float) : LineItem :=
  {| item_productId := id; item_quantity := quantity |}.

(** The cart of the specification's example: three of [P1], one of [P2]. *)
Definition shop_with_cart : Db :=
  {| products := products shop;
     carts := [ {| cart_userId := "ann"; cart_items := [line P1 3; line P2 1] |} ];
     orders := [] |}.

(** A cart whose second line refers to [P3], which is not on sale. *)
Definition shop_with_dangling : Db :=
  {| products := products shop;
     carts := [ {| cart_userId := "ann"; cart_items := [line P1 3; line P3 1] |} ];
     orders := [] |}.

(** A product stored without a price, and a cart that refers to it. *)
Definition unpriced (name : string) : Product :=
  {| product_name := Some name; product_description := None; product_price := None;
     product_quantity := None; product_image := None; product_category := "fruit" |}.

Definition shop_with_unpriced : Db :=
  {| products := <[P3 := unpriced "plum"]> (products shop);
     carts := [ {| cart_userId := "ann"; cart_items := [line P3 1] |} ];
     orders := [] |}.

(** ** Specification vocabulary *)

(** The price the catalog lists for a product, as a factor: [NaN] when the
    product, or its price, is missing. *)
Definition unitPrice (ps : gmap ObjectId Product) (id : ObjectId) : float :=
  default nan (ps !! id ≫= product_price).

(** The total of the specification in the arithmetic of the code: the sum,
    accumulated from 0 in cart order, of the catalog's unit price of each
    line's product times the line's quantity. *)
Definition addLine (ps : gmap ObjectId Product) (sum : float) (item : LineItem) : float :=
  (sum + unitPrice ps (item_productId item) * item_quantity item)%float.

Definition linesTotal (ps : gmap ObjectId Product) (items : list LineItem) : float :=
  fold_left (addLine ps) items 0%float.

Definition inCatalog (ps : gmap ObjectId Product) (item : LineItem) : Prop :=
  is_Some (ps !! item_productId item).

(** The database states a served request goes through: the one it starts
    from, then every state it commits, in order.  A crash, or a rejected
    call, leaves the database in one of them. *)
Definition history (route : World → Response * World) (fs : list bool) (d : Db) : list Db :=
  d :: trace (snd (serve route fs d)).

(** What can happen to the database after an order is placed: a request to
    one of the routes, under any fault schedule, any edit of the product
    collection (a product added by [POST /api/products], a price changed, a
    product deleted), or any edit of the cart collection. *)
Inductive Event :=
  | GetCart (userId : string) (fs : list bool)
  | AddItem (userId productId : string) (quantity : Quantity) (fs : list bool)
  | PlaceOrder (userId address paymentMethod : string) (fs : list bool)
  | CatalogEdit (edit : gmap ObjectId Product → gmap ObjectId Product)
  | CartsEdit (edit : list Cart → list Cart).

Definition step (d : Db) (e : Event) : Db :=
  match e with
  | GetCart userId fs => db (snd (serve (getCart userId) fs d))
  | AddItem userId productId quantity fs => db (snd (serve (addItem userId productId quantity) fs d))
  | PlaceOrder userId address paymentMethod fs =>
      db (snd (serve (placeOrder userId address paymentMethod) fs d))
  | CatalogEdit edit => {| products := edit (products d); carts := carts d; orders := orders d |}
  | CartsEdit edit => {| products := products d; carts := edit (carts d); orders := orders d |}
  end.

Definition run (es : list Event) (d : Db) : Db := fold_left step es d.

(** Reading an order back: orders are identified by their position. *)
Definition readOrder (k : nat) (d : Db) : option Order := orders d !! k.

(** The product a request's [productId] refers to, if any. *)
Definition referenced (productId : string) (d : Db) : option Product :=
  match castObjectId productId with
  | Some id => products d !! id
  | None => None
  end.

(** An id spelled the way [toString()] prints it reads back as itself. *)
Definition canonical (id : ObjectId) : Prop := castObjectId (toString id) = Some id.

(** The lines a cart holds for one product, in cart order. *)
Definition linesFor (id : ObjectId) (items : list LineItem) : list LineItem :=
  filter (λ item, item_productId item = id) items.

(** The items of the user's cart; none when the user has no cart. *)
Definition userItems (userId : string) (d : Db) : list LineItem :=
  match findOne userId (carts d) with
  | Some (_, c) => cart_items c
  | None => []
  end.

(** Merging a quantity into the lines of a product: it is added to the
    first line, or makes a line of its own when there is none. *)
Definition bump (id : ObjectId) (quantity : float) (lines : list LineItem) : list LineItem :=
  match lines with
  | [] => [line id quantity]
  | item :: rest => line id (item_quantity item + quantity) :: rest
  end.

(** The quantity the first line of a product carries after a numeric
    quantity is merged into its lines. *)
Definition bumpedQuantity (quantity : float) (lines : list LineItem) : float :=
  match lines with
  | [] => quantity
  | item :: _ => (item_quantity item + quantity)%float
  end.

(** A run of [addItem] requests of one user for one [productId], each with
    a numeric quantity, none rejected: the answers, oldest first, and the
    database they leave. *)
Fixpoint addItems (userId productId : string) (quantities : list float) (d : Db)
  : list Response * Db :=
  match quantities with
  | [] => ([], d)
  | quantity :: rest =>
      let (r, w) := serve (addItem userId productId (Num quantity)) [] d in
      let (rs, d') := addItems userId productId rest (db w) in
      (r :: rs, d')
  end.

(** The sum of the quantities of a run, accumulated in request order. *)
Definition total (quantities : list float) : float :=
  match quantities with
  | [] => 0%float
  | quantity :: rest => fold_left PrimFloat.add rest quantity
  end.

(** Every partial sum of a run, starting from [x], is a number. *)
Fixpoint numericFrom (x : float) (quantities : list float) : bool :=
  negb (is_nan x) &&
  match quantities with
  | [] => true
  | quantity :: rest => numericFrom (x + quantity) rest
  end.

(** Every partial sum of a run is a number. *)
Definition numericRun (quantities : list float) : bool :=
  match quantities with
  | [] => true
  | quantity :: rest => numericFrom quantity rest
  end.

(** ** Sample runs *)

(** The order of the specification's example, and a later history that
    reprices one of its products, deletes the other, and has the same user
    fill and check out another cart. *)
Definition sample_order : Order :=
  {| order_userId := "ann"; order_items := [line P1 3; line P2 1];
     order_totalPrice := 11; order_address := "1 Main St";
     order_paymentMethod := "cash"; order_status := "Pending" |}.

Definition later_events : list Event :=
  [ CatalogEdit (<[P1 := grocery "apple" 9]>); CatalogEdit (delete P2);
    CartsEdit (λ cs, cs ++ [ {| cart_userId := "bob"; cart_items := [line P1 1] |} ]);
    AddItem "ann" "64b7f0a1c2d3e4f5a6b7c8d1" (Num 4) []; GetCart "ann" [];
    PlaceOrder "ann" "2 Side St" "card" [] ].

(** ** Authentication middleware *)

(** The token and password libraries, as far as the routes use them.
    [jwt_sign id] is [jwt.sign({ id }, "secret_key", { expiresIn: "24h" })]
    at the time of the login; [jwt_verify token] is
    [jwt.verify(token, "secret_key")] at the time of the request: the [id]
    of the decoded payload, or [None] when it throws.  [bcrypt_hash salt
    password] is [bcrypt.hash(password, 10)] for the salt the library draws;
    [bcrypt_compare password hashed] is [bcrypt.compare]. *)
Record Libraries := {
  jwt_sign : string → string;
  jwt_verify : string → option string;
  bcrypt_hash : string → string → string;
  bcrypt_compare : string → string → bool;
}.

(** [String.prototype.split] on a one-character separator: the pieces
    between the separators, empty pieces included; never an empty array. *)
Fixpoint str_split (separator : ascii) (s : string) : list string :=
  match s with
  | EmptyString => [EmptyString]
  | String c rest =>
      if Ascii.eqb c separator
      then EmptyString :: str_split separator rest
      else match str_split separator rest with
           | piece :: pieces => String c piece :: pieces
           | [] => [String c EmptyString]
           end
  end.

(** [req.header("Authorization")?.split(" ")[1]] *)
Definition headerToken (authorization : option string) : option string :=
  match authorization with
  | None => None
  | Some header => str_split " " header !! 1%nat
  end.

(** [authMiddleware], in front of a route that reads [req.user.id]. *)
Definition authMiddleware (L : Libraries) (authorization : option string)
    (next : string → World → Response * World) : World → Response * World :=
  λ w, match headerToken authorization with
       | None => (json 401 (Message "Access denied. No token provided"), w)
       | Some token =>
           if String.eqb token ""
           then (json 401 (Message "Access denied. No token provided"), w)
           else match jwt_verify L token with
                | Some id => next id w
                | None => (json 401 (Message "Invalid token"), w)
                end
       end.

(** ** POST /signup and POST /login *)

(** [userSchema] *)
Record User := {
  user_id : string;
  user_name : string;
  user_email : string;
  user_password : string;
}.

Inductive AccountBody :=
  | AccountMessage (message : string)        (* { message } *)
  | AccountFailure (message : string)        (* { message, error } *)
  | Session (token userId : string).         (* { token, userId } *)

Record AccountResponse := {
  account_status : Z;
  account_body : AccountBody;
}.

Definition account (code : Z) (b : AccountBody) : AccountResponse :=
  {| account_status := code; account_body := b |}.

(** [User.findOne({ email })] *)
Definition findUser (email : string) (us : list User) : option User :=
  snd <$> list_find (λ u, user_email u = email) us.

(** The signup route over the user collection.  [uuid] is the value
    [uuidv4()] returns and [salt] the salt [bcrypt.hash] draws; [fs] flags
    the two persistence calls ([findOne], [save]) that will be rejected. *)
Definition signup (L : Libraries) (uuid salt name email password : string)
    (fs : list bool) (us : list User) : AccountResponse * list User :=
  if rejected fs
  then (account 500 (AccountFailure "Internal Server Error"), us)
  else match findUser email us with
       | Some _ => (account 400 (AccountMessage "Email already exists"), us)
       | None =>
           let newUser := {| user_id := uuid; user_name := name; user_email := email;
                             user_password := bcrypt_hash L salt password |} in
           if rejected (tail fs)
           then (account 500 (AccountFailure "Internal Server Error"), us)
           else (account 201 (AccountMessage "User created successfully"), us ++ [newUser])
       end.

(** The login route; it only reads the user collection. *)
Definition login (L : Libraries) (email password : string)
    (fs : list bool) (us : list User) : AccountResponse :=
  if rejected fs
  then account 500 (AccountFailure "Internal Server Error")
  else match findUser email us with
       | None => account 400 (AccountMessage "Invalid email")
       | Some user =>
           if bcrypt_compare L password (user_password user)
           then account 200 (Session (jwt_sign L (user_id user)) (user_id user))
           else account 400 (AccountMessage "Invalid password")
       end.

(** The value of the [Authorization] header a client builds from a login
    answer. *)
Definition bearer (r : AccountResponse) : option string :=
  match account_body r with
  | Session token _ => Some ("Bearer " +:+ token)
  | _ => None
  end.

(** ** GET /api/products and POST /api/products *)

Inductive CatalogBody :=
  | ProductList (found : list ProductDoc)     (* the array of product documents *)
  | ProductCreated (product : ProductDoc)     (* the new product document *)
  | CatalogFailure (message : string).        (* { message, error } *)

Record CatalogResponse := {
  catalog_status : Z;
  catalog_body : CatalogBody;
}.

Definition catalog (code : Z) (b : CatalogBody) : CatalogResponse :=
  {| catalog_status := code; catalog_body := b |}.

(** [try { ... } catch], for a route with another kind of answer. *)
Definition try_catch_as {R} (body : Handler R) (onError : R) : World → R * World :=
  λ w, match body w with
       | (Some r, w') => (r, w')
       | (None, w') => (onError, w')
       end.

(** [category ? { category } : {}]: an absent or empty [category] query
    parameter gives the empty filter. *)
Definition categoryQuery (category : option string) : option string :=
  match category with
  | None => None
  | Some c => if String.eqb c "" then None else Some c
  end.

Definition matchesQuery (query : option string) (p : ProductDoc) : bool :=
  match query with
  | None => true
  | Some c => String.eqb (product_category (doc p)) c
  end.

(** [Product.find(query)].  The order of the answer is the store's. *)
Definition findProducts (query : option string) (ps : gmap ObjectId Product) : list ProductDoc :=
  filter (λ p, matchesQuery query p = true)
    ((λ kp, {| _id := fst kp; doc := snd kp |}) <$> map_to_list ps).

Definition getProducts (category : option string) : World → CatalogResponse * World :=
  try_catch_as
    (let* found := query (λ d, Some (findProducts (categoryQuery category) (products d))) in
     ret (catalog 200 (ProductList found)))
    (catalog 500 (CatalogFailure "Failed to fetch products")).

(** A write that the database may refuse. *)
Definition commitIf (f : Db → option Db) : Handler unit :=
  let* _ := await in
  λ w, match f (db w) with
       | Some d' => (Some tt, {| db := d'; faults := faults w; trace := trace w ++ [d'] |})
       | None => (None, w)
       end.

(** The insert behind [newProduct.save()]: [_id] is a unique key. *)
Definition insertProduct (p : ProductDoc) (d : Db) : option Db :=
  match products d !! _id p with
  | Some _ => None
  | None => Some {| products := <[_id p := doc p]> (products d);
                    carts := carts d; orders := orders d |}
  end.

(** [category: { type: String, required: true }]: a missing or empty
    category fails validation. *)
Definition validateProduct (p : ProductDoc) : option unit :=
  if String.eqb (product_category (doc p)) "" then None else Some tt.

(** The product route: [new Product(req.body)] with the [_id] the document
    gets, validation and insert in [save()]. *)
Definition createProduct (newId : ObjectId) (fields : Product) : World → CatalogResponse * World :=
  try_catch_as
    (let newProduct := {| _id := newId; doc := fields |} in
     let* _ := orThrow (validateProduct newProduct) in
     let* _ := commitIf (insertProduct newProduct) in
     ret (catalog 201 (ProductCreated newProduct)))
    (catalog 500 (CatalogFailure "Error creating product")).

(** ** More specification vocabulary *)

(** The line of [GET /api/cart] for a cart line, read off the catalog. *)
Definition lineView (ps : gmap ObjectId Product) (item : LineItem) : CartView :=
  {| view_id := item_productId item;
     view_name := ps !! item_productId item ≫= product_name;
     view_price := ps !! item_productId item ≫= product_price;
     view_quantity := item_quantity item;
     view_image := ps !! item_productId item ≫= product_image |}.

(** At most one cart per user. *)
Definition oneCartPerUser (d : Db) : Prop := NoDup (cart_userId <$> carts d).

(** Events that are requests to the cart and order routes or edits of the
    catalog, not outside edits of the cart collection. *)
Definition keepsCarts (e : Event) : Prop :=
  match e with
  | CartsEdit _ => False
  | _ => True
  end.

Fixpoint noSpace (s : string) : bool :=
  match s with
  | EmptyString => true
  | String c rest => negb (Ascii.eqb c " ") && noSpace rest
  end.

(** A catalog or account route served from database [d] under [fs]. *)
Definition serveAs {R} (route : World → R * World) (fs : list bool) (d : Db) : R * World :=
  route {| db := d; faults := fs; trace := [] |}.

(** A sample of the libraries: tokens and hashes that can be read back. *)
Definition toy : Libraries :=
  {| jwt_sign := λ id, "jwt." +:+ id;
     jwt_verify := λ token, if String.prefix "jwt." token
                            then Some (String.substring 4 (String.length token - 4) token)
                            else None;
     bcrypt_hash := λ salt password, salt +:+ "$" +:+ password;
     bcrypt_compare := λ password hashed,
       String.eqb (String.substring (String.length hashed - String.length password)
                     (String.length password) hashed) password |}.

(** The order a checkout of cart [c] creates at the catalog's current
    prices. *)
Definition checkoutOrder (userId address paymentMethod : string)
    (ps : gmap ObjectId Product) (c : Cart) : Order :=
  {| order_userId := userId;
     order_items := cart_items c;
     order_totalPrice := linesTotal ps (cart_items c);
     order_address := address;
     order_paymentMethod := paymentMethod;
     order_status := "Pending" |}.

(** The cart a checkout leaves in place of cart [c]. *)
Definition emptied (c : Cart) : Cart :=
  {| cart_userId := cart_userId c; cart_items := [] |}.

(** The checkout route as the middleware calls it, with a fixed request
    body. *)
Definition sampleCheckout (userId : string) : World → Response * World :=
  placeOrder userId "1 Main St" "cash".

(** * Properties *)

(** ** Numbers: [NaN] is absorbing *)

Lemma SFeqb_irrefl_nan s : SFeqb s s = false → s = S754_nan.
Proof.
  destruct s as [sg|sg| |sg m e]; [by destruct sg|by destruct sg|done|].
  unfold SFeqb, SFcompare. rewrite Z.compare_refl, Pos.compare_refl. by destruct sg.
Qed.

Lemma is_nan_Prim2SF f : is_nan f = true ↔ Prim2SF f = S754_nan.
Proof.
  unfold is_nan. rewrite eqb_spec. split.
  - intros H%negb_true_iff. by apply SFeqb_irrefl_nan.
  - by intros ->.
Qed.

Lemma is_nan_add_l x y : is_nan x = true → is_nan (x + y) = true.
Proof. rewrite !is_nan_Prim2SF, add_spec. by intros ->. Qed.

Lemma is_nan_add_r x y : is_nan y = true → is_nan (x + y) = true.
Proof.
  rewrite !is_nan_Prim2SF, add_spec. intros ->.
  unfold SF64add, SFadd. by destruct (Prim2SF x).
Qed.

Lemma is_nan_mul_r x y : is_nan y = true → is_nan (x * y) = true.
Proof.
  rewrite !is_nan_Prim2SF, mul_spec. intros ->.
  unfold SF64mul, SFmul. by destruct (Prim2SF x).
Qed.

Lemma castNumber_Some n : is_nan n = false → castNumber n = Some n.
Proof. unfold castNumber. by intros ->. Qed.

Lemma castNumber_None n : is_nan n = true → castNumber n = None.
Proof. unfold castNumber. by intros ->. Qed.

(** ** The handler primitives *)

Lemma await_reliable d t :
  await {| db := d; faults := []; trace := t |} = (Some tt, {| db := d; faults := []; trace := t |}).
Proof. reflexivity. Qed.

Lemma query_reliable {A} (q : Db → option A) d t :
  query q {| db := d; faults := []; trace := t |} = (q d, {| db := d; faults := []; trace := t |}).
Proof. reflexivity. Qed.

Lemma commit_reliable f d t :
  commit f {| db := d; faults := []; trace := t |}
  = (Some tt, {| db := f d; faults := []; trace := t ++ [f d] |}).
Proof. reflexivity. Qed.

(** Unfolds a served route down to the case analyses it makes. *)
Ltac run_handler :=
  cbv [serve try_catch bind query commit await orThrow ret throw]; simpl.

(** A query never writes: whatever the schedule, it leaves the database and
    the record of committed states as they were. *)
Lemma query_frame {A} (q : Db → option A) w o w' :
  query q w = (o, w') → db w' = db w ∧ trace w' = trace w ∧ faults w' = tail (faults w).
Proof.
  unfold query, bind, await. destruct (rejected (faults w)); intros [= <- <-]; done.
Qed.

(** ** Populated carts *)

Lemma findOne_Some userId cs i c :
  findOne userId cs = Some (i, c) → cs !! i = Some c ∧ cart_userId c = userId.
Proof. unfold findOne. intros (? & ? & _)%list_find_Some. done. Qed.

Lemma items_map_dangling ps items item :
  item ∈ items → ps !! item_productId item = None →
  items_map (populate ps items) = None.
Proof.
  induction items as [|x items IH]; [by intros ?%elem_of_nil|].
  intros [->|Hin]%elem_of_cons Hnone; simpl.
  - unfold cartLine. simpl. by rewrite Hnone.
  - rewrite (IH Hin Hnone). by destruct (cartLine _).
Qed.

Lemma reduce_dangling ps items item total :
  item ∈ items → ps !! item_productId item = None →
  reduce (populate ps items) total = None.
Proof.
  revert total. induction items as [|x items IH]; intros total; [by intros ?%elem_of_nil|].
  intros [->|Hin]%elem_of_cons Hnone; simpl.
  - by rewrite Hnone.
  - destruct (ps !! item_productId x); simpl; [by apply IH|done].
Qed.

(** ** GET /api/cart *)

(** The route is read-only under every fault schedule. *)
Lemma getCart_frame userId fs d :
  db (snd (serve (getCart userId) fs d)) = d ∧ trace (snd (serve (getCart userId) fs d)) = [].
Proof.
  unfold getCart. run_handler.
  destruct (rejected fs); simpl; [done|].
  destruct (findOnePopulated userId d) as [cart|]; simpl; [|done].
  by destruct (items_map (pc_items cart)).
Qed.

(** C9. A user with no cart record gets the empty collection [{ items: [] }]
    with status 200, and the call writes nothing: the database after it is
    the database before it (so no cart record was created), with no state
    committed; the same frame holds for every [getCart] call, whoever asks,
    whatever the database and whichever persistence calls are rejected. *)
Theorem getCart_no_cart_read_only (userId : string) (d : Db) :
  findOne userId (carts d) = None →
  serve (getCart userId) [] d = (json 200 EmptyItems, {| db := d; faults := []; trace := [] |})
  ∧ findOne userId (carts (db (snd (serve (getCart userId) [] d)))) = None
  ∧ ∀ userId' fs d',
      db (snd (serve (getCart userId') fs d')) = d'
      ∧ trace (snd (serve (getCart userId') fs d')) = [].
Proof.
  intros Hnone.
  assert (serve (getCart userId) [] d
          = (json 200 EmptyItems, {| db := d; faults := []; trace := [] |})) as Hrun.
  { unfold getCart. run_handler. unfold findOnePopulated. by rewrite Hnone. }
  split; [exact Hrun|]. split; [by rewrite Hrun|].
  intros. apply getCart_frame.
Qed.

Lemma getCart_no_cart_read_only_witness :
  serve (getCart "ann") [] shop = (json 200 EmptyItems, {| db := shop; faults := []; trace := [] |})
  ∧ findOne "ann" (carts (db (snd (serve (getCart "ann") [] shop)))) = None
  ∧ ∀ userId' fs d',
      db (snd (serve (getCart userId') fs d')) = d'
      ∧ trace (snd (serve (getCart userId') fs d')) = [].
Proof. apply (getCart_no_cart_read_only "ann" shop). reflexivity. Defined.

(** C10. When the user's cart holds a line whose product is no longer in the
    catalog, the whole request fails with the route's 500 answer (an Internal
    error), under every fault schedule: the populated reference is [null] and
    reading it throws.  No line is skipped and no remaining item is returned;
    the database is left as it was. *)
Theorem getCart_dangling_product_fails (userId : string) (d : Db) (i : nat) (c : Cart)
    (item : LineItem) (fs : list bool) :
  findOne userId (carts d) = Some (i, c) →
  item ∈ cart_items c →
  products d !! item_productId item = None →
  fst (serve (getCart userId) fs d) = json 500 (Failure "Error fetching cart")
  ∧ errorKind (fst (serve (getCart userId) fs d)) = Some Internal
  ∧ (∀ lines, body (fst (serve (getCart userId) fs d)) ≠ CartLines lines)
  ∧ db (snd (serve (getCart userId) fs d)) = d.
Proof.
  intros Hfound Hin Hnone.
  assert (fst (serve (getCart userId) fs d) = json 500 (Failure "Error fetching cart")) as Hrun.
  { unfold getCart. run_handler.
    destruct (rejected fs); simpl; [done|].
    unfold findOnePopulated. rewrite Hfound. simpl.
    by rewrite (items_map_dangling _ _ _ Hin Hnone). }
  rewrite Hrun. split_and!; [done|done|done|apply getCart_frame].
Qed.

Lemma getCart_dangling_product_fails_witness :
  fst (serve (getCart "ann") [] shop_with_dangling) = json 500 (Failure "Error fetching cart")
  ∧ errorKind (fst (serve (getCart "ann") [] shop_with_dangling)) = Some Internal
  ∧ (∀ lines, body (fst (serve (getCart "ann") [] shop_with_dangling)) ≠ CartLines lines)
  ∧ db (snd (serve (getCart "ann") [] shop_with_dangling)) = shop_with_dangling.
Proof.
  apply (getCart_dangling_product_fails "ann" shop_with_dangling 0
           {| cart_userId := "ann"; cart_items := [line P1 3; line P3 1] |} (line P3 1) []).
  - reflexivity.
  - vm_compute. right. left.
  - vm_compute. reflexivity.
Defined.

(** ** POST /api/order *)

Lemma reduce_populate ps items sum :
  Forall (inCatalog ps) items →
  reduce (populate ps items) sum = Some (fold_left (addLine ps) items sum).
Proof.
  intros Hall. revert sum.
  induction Hall as [|item items [p Hp] _ IH]; intros sum; simpl; [done|].
  rewrite Hp. simpl. rewrite IH. do 2 f_equal.
  unfold addLine, unitPrice, priceOf. cbn [doc]. by rewrite Hp.
Qed.

Lemma fold_addLine_nan ps items sum :
  is_nan sum = true → is_nan (fold_left (addLine ps) items sum) = true.
Proof.
  revert sum. induction items as [|item items IH]; intros sum Hnan; simpl; [done|].
  apply IH. by apply is_nan_add_l.
Qed.

(** A total that is a number was accumulated from quantities that are. *)
Lemma fold_addLine_numeric ps items sum :
  is_nan (fold_left (addLine ps) items sum) = false →
  Forall (λ item, is_nan (item_quantity item) = false) items.
Proof.
  revert sum. induction items as [|item items IH]; intros sum Hnum; simpl in *; [done|].
  constructor; [|by eapply IH].
  destruct (is_nan (item_quantity item)) eqn:Hq; [|done].
  rewrite fold_addLine_nan in Hnum; [done|].
  unfold addLine. by apply is_nan_add_r, is_nan_mul_r.
Qed.

Lemma castItems_populate ps items :
  Forall (inCatalog ps) items →
  Forall (λ item, is_nan (item_quantity item) = false) items →
  castItems (populate ps items) = Some items.
Proof.
  induction 1 as [|[id q] items [p Hp] _ IH]; intros Hnum; simpl; [done|].
  apply Forall_cons in Hnum as [Hq Hnum]. simpl in Hp, Hq.
  unfold castItem. simpl. rewrite Hp. simpl. rewrite (castNumber_Some _ Hq).
  by rewrite (IH Hnum).
Qed.

Lemma populate_length ps items : length (populate ps items) = length items.
Proof. unfold populate. by rewrite length_map. Qed.

(** Replacing the user's first cart by another cart of the same user keeps
    it the user's first cart. *)
Lemma findOne_insert userId cs i c c' :
  findOne userId cs = Some (i, c) →
  cart_userId c' = userId →
  findOne userId (<[i := c']> cs) = Some (i, c').
Proof.
  unfold findOne. intros (Hi & Hc & Hfirst)%list_find_Some Hc'.
  apply list_find_Some. split_and!.
  - apply list_lookup_insert_eq. by eapply lookup_lt_Some.
  - done.
  - intros j y Hj Hlt. rewrite list_lookup_insert_ne in Hj by lia. by eapply Hfirst.
Qed.

Lemma newOrder_userId userId items sum address paymentMethod order :
  newOrder userId items sum address paymentMethod = Some order →
  order_userId order = userId.
Proof.
  unfold newOrder. destruct (castItems items), (castNumber sum); [|done..].
  by intros [= <-].
Qed.

(** What a checkout leaves behind, under every fault schedule: nothing, or
    the order alone, or the order and then the emptied cart. *)
Lemma placeOrder_runs userId address paymentMethod fs d :
  let r := fst (serve (placeOrder userId address paymentMethod) fs d) in
  let w := snd (serve (placeOrder userId address paymentMethod) fs d) in
  (trace w = [] ∧ db w = d ∧ status r ≠ 201)
  ∨ (∃ order,
        trace w = [saveOrder order d] ∧ db w = saveOrder order d ∧ status r ≠ 201
        ∧ order_userId order = userId)
  ∨ (∃ order i c,
        trace w = [saveOrder order d; saveCart (Some i) c (saveOrder order d)]
        ∧ db w = saveCart (Some i) c (saveOrder order d)
        ∧ r = json 201 (OrderPlaced "Order placed successfully" order)
        ∧ order_userId order = userId).
Proof.
  unfold placeOrder. run_handler.
  destruct (rejected fs); simpl; [by left|].
  destruct (findOnePopulated userId d) as [cart|]; simpl; [|by left].
  destruct (length (pc_items cart) =? 0)%nat; simpl; [by left|].
  destruct (reduce (pc_items cart) 0) as [sum|]; simpl; [|by left].
  destruct (newOrder userId (pc_items cart) sum address paymentMethod) as [order|] eqn:Horder;
    simpl; [|by left].
  apply newOrder_userId in Horder.
  destruct (rejected (tail fs)); simpl; [by left|].
  destruct (rejected (tail (tail fs))); simpl.
  - right; left. eexists. by split_and!.
  - right; right. eexists _, _, _. by split_and!.
Qed.

(** C4. With no cart for the user, or with a cart whose item collection is
    empty, checkout answers 400 "Cart is empty" (an InvalidState error) and
    commits nothing: no order is created and the database is unchanged, also
    when persistence calls are rejected. *)
Theorem placeOrder_empty_cart_fails (userId address paymentMethod : string) (d : Db) :
  (findOne userId (carts d) = None
   ∨ ∃ i c, findOne userId (carts d) = Some (i, c) ∧ cart_items c = []) →
  serve (placeOrder userId address paymentMethod) [] d
    = (json 400 (Message "Cart is empty"), {| db := d; faults := []; trace := [] |})
  ∧ errorKind (fst (serve (placeOrder userId address paymentMethod) [] d)) = Some InvalidState
  ∧ ∀ fs, db (snd (serve (placeOrder userId address paymentMethod) fs d)) = d
          ∧ trace (snd (serve (placeOrder userId address paymentMethod) fs d)) = [].
Proof.
  intros Hempty.
  assert (∀ fs, ∃ r, serve (placeOrder userId address paymentMethod) fs d
                     = (r, {| db := d; faults := tail fs; trace := [] |})
                     ∧ (rejected fs = false → r = json 400 (Message "Cart is empty"))) as Hrun.
  { intros fs. unfold placeOrder. run_handler.
    destruct (rejected fs); simpl; [by eexists|].
    unfold findOnePopulated.
    destruct Hempty as [->|(i & c & -> & Hc)]; simpl; [by eexists|].
    rewrite Hc. simpl. by eexists. }
  split_and!.
  - destruct (Hrun []) as (r & -> & Hr). by rewrite Hr.
  - destruct (Hrun []) as (r & -> & Hr). by rewrite Hr.
  - intros fs. destruct (Hrun fs) as (r & -> & _). done.
Qed.

Lemma placeOrder_empty_cart_fails_witness :
  serve (placeOrder "ann" "1 Main St" "cash") [] shop
    = (json 400 (Message "Cart is empty"), {| db := shop; faults := []; trace := [] |})
  ∧ errorKind (fst (serve (placeOrder "ann" "1 Main St" "cash") [] shop)) = Some InvalidState
  ∧ ∀ fs, db (snd (serve (placeOrder "ann" "1 Main St" "cash") fs shop)) = shop
          ∧ trace (snd (serve (placeOrder "ann" "1 Main St" "cash") fs shop)) = [].
Proof.
  apply (placeOrder_empty_cart_fails "ann" "1 Main St" "cash" shop).
  left. reflexivity.
Defined.

(** C1, as the specification words it, fails: a cart that exists, is not
    empty and whose lines all refer to products of the catalog does not
    always check out.  The product of the sample has no price, the total is
    [NaN], the order fails validation and the route answers 500. *)
Lemma placeOrder_unpriced_product_no_order :
  ¬ (∀ userId address paymentMethod d i c,
       findOne userId (carts d) = Some (i, c) →
       cart_items c ≠ [] →
       Forall (inCatalog (products d)) (cart_items c) →
       status (fst (serve (placeOrder userId address paymentMethod) [] d)) = 201).
Proof.
  intros Hclaim.
  specialize (Hclaim "ann" "1 Main St" "cash" shop_with_unpriced 0%nat
                {| cart_userId := "ann"; cart_items := [line P3 1] |}).
  assert (status (fst (serve (placeOrder "ann" "1 Main St" "cash") [] shop_with_unpriced)) = 500)
    as Hrun by (by vm_compute).
  rewrite Hrun in Hclaim. discriminate Hclaim.
  - reflexivity.
  - discriminate.
  - repeat constructor. vm_compute. eexists. reflexivity.
Qed.

(** Nor is the stored total the exact sum: one line of 1801439850948199
    pears at 5 is stored as 9007199254740996, the double nearest to the
    product 9007199254740995. *)
Example placeOrder_total_is_rounded :
  order_totalPrice <$>
    readOrder 0 (db (snd (serve (placeOrder "ann" "1 Main St" "cash") []
                            {| products := products shop;
                               carts := [ {| cart_userId := "ann";
                                             cart_items := [line P2 1801439850948199] |} ];
                               orders := [] |})))
  = Some 9007199254740996%float
  ∧ (5 * 1801439850948199 = 9007199254740995)%Z.
Proof. split; by vm_compute. Qed.

(** Prices with decimals are doubles too: three items at 0.1 total
    0.30000000000000004. *)
Example placeOrder_decimal_price :
  order_totalPrice <$>
    readOrder 0 (db (snd (serve (placeOrder "ann" "1 Main St" "cash") []
                            {| products := <[P1 := grocery "apple" 0.1]> ∅;
                               carts := [ {| cart_userId := "ann";
                                             cart_items := [line P1 3] |} ];
                               orders := [] |})))
  = Some 0.30000000000000004%float
  ∧ 0.30000000000000004%float ≠ 0.3%float.
Proof. split; [by vm_compute|]. vm_compute. discriminate. Qed.

(** C1, amended.  When the user's cart exists, holds at least one line,
    every line refers to a product of the catalog, and the total is a number
    (not [NaN]), checkout answers 201 with an order whose [totalPrice] is the
    sum, accumulated from 0 in cart order in double-precision arithmetic, of
    current unit price times quantity over the cart's lines, whose items are
    the cart's (product reference, quantity) pairs, whose status is
    "Pending" and which carries the caller's id, address and payment method;
    the order is appended to the orders, and the user's cart is left with an
    empty item collection, so that [getCart] then answers with the empty
    array. *)
Theorem placeOrder_creates_order (userId address paymentMethod : string) (d : Db)
    (i : nat) (c : Cart) :
  findOne userId (carts d) = Some (i, c) →
  cart_items c ≠ [] →
  Forall (inCatalog (products d)) (cart_items c) →
  is_nan (linesTotal (products d) (cart_items c)) = false →
  ∃ order w,
    serve (placeOrder userId address paymentMethod) [] d
      = (json 201 (OrderPlaced "Order placed successfully" order), w)
    ∧ order_totalPrice order = linesTotal (products d) (cart_items c)
    ∧ order_items order = cart_items c
    ∧ order_status order = "Pending"
    ∧ order_userId order = userId
    ∧ order_address order = address
    ∧ order_paymentMethod order = paymentMethod
    ∧ orders (db w) = orders d ++ [order]
    ∧ products (db w) = products d
    ∧ findOne userId (carts (db w)) = Some (i, {| cart_userId := userId; cart_items := [] |})
    ∧ fst (serve (getCart userId) [] (db w)) = json 200 (CartLines []).
Proof.
  intros Hfound Hitems Hall Hnum.
  destruct (findOne_Some _ _ _ _ Hfound) as [_ Huser].
  eexists _, _. split.
  { unfold placeOrder. run_handler. unfold findOnePopulated. rewrite Hfound. simpl.
    rewrite populate_length.
    replace (length (cart_items c) =? 0)%nat with false by (by destruct (cart_items c)).
    rewrite (reduce_populate _ _ _ Hall). simpl.
    unfold newOrder.
    rewrite (castItems_populate _ _ Hall (fold_addLine_numeric _ _ _ Hnum)).
    fold (linesTotal (products d) (cart_items c)).
    rewrite (castNumber_Some _ Hnum). simpl. reflexivity. }
  simpl. split_and!; try done.
  - rewrite Huser. by eapply findOne_insert.
  - unfold getCart. run_handler. unfold findOnePopulated.
    rewrite Huser. cbn [saveCart saveOrder carts]. by erewrite findOne_insert.
Qed.

Lemma placeOrder_creates_order_witness :
  ∃ order w,
    serve (placeOrder "ann" "1 Main St" "cash") [] shop_with_cart
      = (json 201 (OrderPlaced "Order placed successfully" order), w)
    ∧ order_totalPrice order = linesTotal (products shop_with_cart) [line P1 3; line P2 1]
    ∧ order_items order = [line P1 3; line P2 1]
    ∧ order_status order = "Pending"
    ∧ order_userId order = "ann"
    ∧ order_address order = "1 Main St"
    ∧ order_paymentMethod order = "cash"
    ∧ orders (db w) = orders shop_with_cart ++ [order]
    ∧ products (db w) = products shop_with_cart
    ∧ findOne "ann" (carts (db w)) = Some (0%nat, {| cart_userId := "ann"; cart_items := [] |})
    ∧ fst (serve (getCart "ann") [] (db w)) = json 200 (CartLines []).
Proof.
  apply (placeOrder_creates_order "ann" "1 Main St" "cash" shop_with_cart 0
           {| cart_userId := "ann"; cart_items := [line P1 3; line P2 1] |}).
  - reflexivity.
  - simpl. discriminate.
  - repeat constructor; vm_compute; eexists; reflexivity.
  - vm_compute. reflexivity.
Defined.

(** The example of the specification: three at 2 and one at 5 make 11, and
    so do three at 2.00 and one at 5.00. *)
Example placeOrder_total_eleven :
  linesTotal (products shop_with_cart) [line P1 3; line P2 1] = 11%float
  ∧ ∃ order, body (fst (serve (placeOrder "ann" "1 Main St" "cash") [] shop_with_cart))
             = OrderPlaced "Order placed successfully" order
             ∧ order_totalPrice order = 11%float.
Proof. split; [by vm_compute|]. eexists. split; by vm_compute. Qed.

(** C6, as the specification words it, fails: a cart with a line whose
    product has left the catalog does not make checkout answer NotFound. *)
Lemma placeOrder_dangling_not_NotFound :
  ¬ (∀ userId address paymentMethod d i c item,
       findOne userId (carts d) = Some (i, c) →
       item ∈ cart_items c →
       products d !! item_productId item = None →
       errorKind (fst (serve (placeOrder userId address paymentMethod) [] d)) = Some NotFound).
Proof.
  intros Hclaim.
  specialize (Hclaim "ann" "1 Main St" "cash" shop_with_dangling 0%nat
                {| cart_userId := "ann"; cart_items := [line P1 3; line P3 1] |} (line P3 1)).
  assert (errorKind (fst (serve (placeOrder "ann" "1 Main St" "cash") [] shop_with_dangling))
          = Some Internal) as Hrun by (by vm_compute).
  rewrite Hrun in Hclaim. discriminate Hclaim.
  - reflexivity.
  - vm_compute. right. left.
  - by vm_compute.
Qed.

(** C6, amended.  When the user's cart holds a line whose product is missing
    from the catalog, checkout fails with the route's 500 answer (an Internal
    error) under every fault schedule; the line is not skipped: no order is
    created, nothing is committed and the database is left as it was. *)
Theorem placeOrder_dangling_product_fails (userId address paymentMethod : string) (d : Db)
    (i : nat) (c : Cart) (item : LineItem) (fs : list bool) :
  findOne userId (carts d) = Some (i, c) →
  item ∈ cart_items c →
  products d !! item_productId item = None →
  fst (serve (placeOrder userId address paymentMethod) fs d)
    = json 500 (Failure "Error placing order")
  ∧ errorKind (fst (serve (placeOrder userId address paymentMethod) fs d)) = Some Internal
  ∧ db (snd (serve (placeOrder userId address paymentMethod) fs d)) = d
  ∧ trace (snd (serve (placeOrder userId address paymentMethod) fs d)) = [].
Proof.
  intros Hfound Hin Hnone.
  assert (serve (placeOrder userId address paymentMethod) fs d
          = (json 500 (Failure "Error placing order"),
             {| db := d; faults := tail fs; trace := [] |})) as ->.
  { unfold placeOrder. run_handler.
    destruct (rejected fs); simpl; [done|].
    unfold findOnePopulated. rewrite Hfound. simpl.
    rewrite populate_length.
    replace (length (cart_items c) =? 0)%nat with false
      by (destruct (cart_items c); [by apply elem_of_nil in Hin|done]).
    by rewrite (reduce_dangling _ _ _ 0 Hin Hnone). }
  done.
Qed.

Lemma placeOrder_dangling_product_fails_witness :
  fst (serve (placeOrder "ann" "1 Main St" "cash") [] shop_with_dangling)
    = json 500 (Failure "Error placing order")
  ∧ errorKind (fst (serve (placeOrder "ann" "1 Main St" "cash") [] shop_with_dangling))
    = Some Internal
  ∧ db (snd (serve (placeOrder "ann" "1 Main St" "cash") [] shop_with_dangling))
    = shop_with_dangling
  ∧ trace (snd (serve (placeOrder "ann" "1 Main St" "cash") [] shop_with_dangling)) = [].
Proof.
  apply (placeOrder_dangling_product_fails "ann" "1 Main St" "cash" shop_with_dangling 0
           {| cart_userId := "ann"; cart_items := [line P1 3; line P3 1] |} (line P3 1) []).
  - reflexivity.
  - vm_compute. right. left.
  - vm_compute. reflexivity.
Defined.

(** The database a request ends in is the last state of its history. *)
Lemma placeOrder_history_last userId address paymentMethod fs d :
  last (history (placeOrder userId address paymentMethod) fs d)
  = Some (db (snd (serve (placeOrder userId address paymentMethod) fs d))).
Proof.
  unfold history.
  destruct (placeOrder_runs userId address paymentMethod fs d)
    as [(-> & -> & _)|[(o & -> & -> & _)|(o & i & c & -> & -> & _)]]; done.
Qed.

(** C3. In every execution of checkout, whichever persistence calls are
    rejected, a state in which the carts differ from the initial ones (the
    cart has been cleared and saved) comes strictly after a state in which
    the order is already stored while the carts are still untouched, and the
    order is still stored in it: the cart is never emptied before the order
    is persisted. *)
Theorem placeOrder_order_saved_before_cart_cleared
    (userId address paymentMethod : string) (fs : list bool) (d : Db) (k : nat) (s : Db) :
  history (placeOrder userId address paymentMethod) fs d !! k = Some s →
  carts s ≠ carts d →
  ∃ j s' order,
    (j < k)%nat
    ∧ history (placeOrder userId address paymentMethod) fs d !! j = Some s'
    ∧ carts s' = carts d
    ∧ orders s' = orders d ++ [order]
    ∧ orders s = orders d ++ [order]
    ∧ order_userId order = userId.
Proof.
  unfold history. intros Hk Hcarts.
  destruct (placeOrder_runs userId address paymentMethod fs d)
    as [(Ht & _)|[(o & Ht & _)|(o & i & c & Ht & _ & _ & Hu)]];
    rewrite Ht in *; clear Ht.
  - destruct k as [|k]; simplify_eq/=; done.
  - destruct k as [|[|k]]; simplify_eq/=; done.
  - destruct k as [|[|[|k]]]; simplify_eq/=; try done.
    exists 1%nat, (saveOrder o d), o. split_and!; [lia|done..].
Qed.

Lemma placeOrder_order_saved_before_cart_cleared_witness :
  ∃ j s' order,
    (j < 2)%nat
    ∧ history (placeOrder "ann" "1 Main St" "cash") [] shop_with_cart !! j = Some s'
    ∧ carts s' = carts shop_with_cart
    ∧ orders s' = orders shop_with_cart ++ [order]
    ∧ orders (db (snd (serve (placeOrder "ann" "1 Main St" "cash") [] shop_with_cart)))
      = orders shop_with_cart ++ [order]
    ∧ order_userId order = "ann".
Proof.
  apply (placeOrder_order_saved_before_cart_cleared "ann" "1 Main St" "cash" []
           shop_with_cart 2).
  - reflexivity.
  - vm_compute. discriminate.
Defined.

(** A rejected second save stops checkout between its two writes: the order
    is stored and the cart still holds its lines. *)
Example placeOrder_interrupted :
  status (fst (serve (placeOrder "ann" "1 Main St" "cash") [false; false; true] shop_with_cart))
  = 500
  ∧ orders (db (snd (serve (placeOrder "ann" "1 Main St" "cash") [false; false; true]
                       shop_with_cart)))
    = [sample_order]
  ∧ carts (db (snd (serve (placeOrder "ann" "1 Main St" "cash") [false; false; true]
                      shop_with_cart)))
    = carts shop_with_cart.
Proof. by vm_compute. Qed.

(** ** Orders are snapshots *)

(** Adding to a cart never touches products or orders. *)
Lemma addItem_frame userId productId quantity fs d :
  products (db (snd (serve (addItem userId productId quantity) fs d))) = products d
  ∧ orders (db (snd (serve (addItem userId productId quantity) fs d))) = orders d.
Proof.
  unfold addItem. run_handler.
  destruct (rejected fs); simpl; [done|].
  destruct (findById productId d) as [[p|]|]; simpl; [|done..].
  destruct (rejected (tail fs)); simpl; [done|].
  destruct (merge_item _ _ _); simpl; [|done].
  by destruct (rejected (tail (tail fs))).
Qed.

Lemma step_keeps_orders d e k o :
  readOrder k d = Some o → readOrder k (step d e) = Some o.
Proof.
  unfold readOrder. intros Hk. destruct e as [u fs|u p q fs|u a m fs|edit|edit]; simpl.
  - by rewrite (proj1 (getCart_frame u fs d)).
  - by rewrite (proj2 (addItem_frame u p q fs d)).
  - destruct (placeOrder_runs u a m fs d)
      as [(_ & -> & _)|[(o' & _ & -> & _)|(o' & i & c & _ & -> & _)]]; simpl;
      [done|by apply lookup_app_l_Some..].
  - done.
  - done.
Qed.

Lemma run_keeps_orders es d k o :
  readOrder k d = Some o → readOrder k (run es d) = Some o.
Proof.
  unfold run. revert d. induction es as [|e es IH]; intros d Hk; simpl; [done|].
  by apply IH, step_keeps_orders.
Qed.

(** C8. Once checkout has answered 201 with an order, the order is stored
    under the next free position, and reading it back after any later
    sequence of events (requests to the routes under any fault schedule,
    price changes, product deletions, cart mutations) gives the very same
    order: its [totalPrice] is the one computed at creation. *)
Theorem order_totalPrice_is_snapshot (userId address paymentMethod message : string)
    (fs : list bool) (d : Db) (order : Order) (w : World) (es : list Event) :
  serve (placeOrder userId address paymentMethod) fs d
    = (json 201 (OrderPlaced message order), w) →
  readOrder (length (orders d)) (db w) = Some order
  ∧ readOrder (length (orders d)) (run es (db w)) = Some order
  ∧ order_totalPrice <$> readOrder (length (orders d)) (run es (db w))
    = Some (order_totalPrice order).
Proof.
  intros Hrun.
  assert (readOrder (length (orders d)) (db w) = Some order) as Hread.
  { pose proof (placeOrder_runs userId address paymentMethod fs d) as Hcases.
    rewrite Hrun in Hcases. simpl in Hcases.
    destruct Hcases as [(_ & _ & ?)|[(o' & _ & _ & ? & _)|(o' & i & c & _ & -> & [= _ <-] & _)]];
      [done..|].
    unfold readOrder. simpl. by rewrite lookup_app_r, Nat.sub_diag. }
  split_and!; [done|by apply run_keeps_orders|].
  by rewrite (run_keeps_orders es _ _ _ Hread).
Qed.

Lemma order_totalPrice_is_snapshot_witness :
  readOrder (length (orders shop_with_cart))
    (db (snd (serve (placeOrder "ann" "1 Main St" "cash") [] shop_with_cart)))
  = Some sample_order
  ∧ readOrder (length (orders shop_with_cart))
      (run later_events (db (snd (serve (placeOrder "ann" "1 Main St" "cash") [] shop_with_cart))))
    = Some sample_order
  ∧ order_totalPrice <$>
      readOrder (length (orders shop_with_cart))
        (run later_events (db (snd (serve (placeOrder "ann" "1 Main St" "cash") [] shop_with_cart))))
    = Some (order_totalPrice sample_order).
Proof.
  apply (order_totalPrice_is_snapshot "ann" "1 Main St" "cash" "Order placed successfully"
           [] shop_with_cart sample_order
           (snd (serve (placeOrder "ann" "1 Main St" "cash") [] shop_with_cart)) later_events).
  vm_compute. reflexivity.
Defined.

(** After those events the catalog no longer prices the order at 11, and
    the user's second order has its own total. *)
Example later_events_reprice :
  linesTotal (products (run later_events
                          (db (snd (serve (placeOrder "ann" "1 Main St" "cash") [] shop_with_cart)))))
    (order_items sample_order) ≠ 11%float
  ∧ order_totalPrice <$>
      readOrder 1 (run later_events
                     (db (snd (serve (placeOrder "ann" "1 Main St" "cash") [] shop_with_cart))))
    = Some 36%float.
Proof. split; [vm_compute; discriminate|by vm_compute]. Qed.

(** ** POST /api/cart *)

Lemma merge_item_cons_eq productId quantity x items :
  toString (item_productId x) = productId →
  merge_item productId quantity (x :: items)
  = (λ merged, line (item_productId x) merged :: items)
      <$> addQuantity (item_quantity x) quantity.
Proof.
  intros Heq. unfold merge_item, find_item. simpl. rewrite decide_True by done.
  by destruct (addQuantity _ _).
Qed.

Lemma merge_item_cons_ne productId quantity x items :
  toString (item_productId x) ≠ productId →
  merge_item productId quantity (x :: items)
  = (x ::.) <$> merge_item productId quantity items.
Proof.
  intros Hne. unfold merge_item, find_item. simpl. rewrite decide_False by done.
  destruct (list_find _ items) as [[j y]|]; simpl.
  - by destruct (addQuantity _ _).
  - by destruct (castObjectId productId), (pushQuantity quantity).
Qed.

Lemma toString_inj id id' : toString id = toString id' → id = id'.
Proof. destruct id, id'. simpl. by intros ->. Qed.

(** The merge step on a canonical id, seen on the lines of the product: a
    line is made for it when there is none, the first one takes the merged
    quantity otherwise; the lines of other products are as they were. *)
Lemma merge_item_lines id quantity items items' :
  canonical id →
  merge_item (toString id) quantity items = Some items' →
  match linesFor id items with
  | [] => ∃ pushed, pushQuantity quantity = Some pushed
                    ∧ linesFor id items' = [line id pushed]
  | x :: rest => ∃ merged, addQuantity (item_quantity x) quantity = Some merged
                           ∧ linesFor id items' = line id merged :: rest
  end
  ∧ ∀ id', id' ≠ id → linesFor id' items' = linesFor id' items.
Proof.
  intros Hcan. unfold linesFor. revert items'.
  induction items as [|x items IH]; intros items' Hmerge.
  - unfold merge_item in Hmerge. simpl in Hmerge. rewrite Hcan in Hmerge.
    destruct (pushQuantity quantity) as [pushed|]; [|done]. injection Hmerge as <-.
    split.
    + exists pushed. split; [done|]. by rewrite filter_cons_True.
    + intros id' Hne. rewrite filter_cons_False by (simpl; congruence). done.
  - destruct (decide (item_productId x = id)) as [Hx|Hx].
    + rewrite merge_item_cons_eq in Hmerge by (by rewrite Hx).
      apply fmap_Some in Hmerge as (merged & Hadd & ->).
      rewrite filter_cons_True by done. split.
      * exists merged. split; [done|]. rewrite filter_cons_True by done. by rewrite Hx.
      * intros id' Hne. rewrite !filter_cons_False by (simpl; congruence). done.
    + rewrite merge_item_cons_ne in Hmerge by (intros ?%toString_inj; done).
      apply fmap_Some in Hmerge as (items0 & Hmerge & ->).
      destruct (IH items0 Hmerge) as [Hsame Hother].
      rewrite !filter_cons_False by done. split; [done|].
      intros id' Hne. rewrite !filter_cons. case_decide; [|by apply Hother].
      by rewrite (Hother id' Hne).
Qed.

Lemma castNumber_inv n q : castNumber n = Some q → q = n ∧ is_nan n = false.
Proof. unfold castNumber. destruct (is_nan n); [done|]. by intros [= <-]. Qed.

(** With a numeric quantity the merge step on a canonical id succeeds as
    soon as the quantity the line will carry is a number. *)
Lemma merge_item_canonical_Some id n items :
  canonical id →
  is_nan (bumpedQuantity n (linesFor id items)) = false →
  is_Some (merge_item (toString id) (Num n) items).
Proof.
  intros Hcan. unfold linesFor. induction items as [|x items IH]; intros Hnum.
  - unfold merge_item. simpl. rewrite Hcan. simpl in Hnum.
    by rewrite (castNumber_Some _ Hnum).
  - destruct (decide (item_productId x = id)) as [Hx|Hx].
    + rewrite merge_item_cons_eq by (by rewrite Hx).
      rewrite filter_cons_True in Hnum by done. simpl in *.
      by rewrite (castNumber_Some _ Hnum).
    + rewrite merge_item_cons_ne by (intros ?%toString_inj; done).
      rewrite filter_cons_False in Hnum by done. by apply fmap_is_Some, IH.
Qed.

Lemma findOne_app_new userId cs c :
  findOne userId cs = None → cart_userId c = userId →
  findOne userId (cs ++ [c]) = Some (length cs, c).
Proof.
  unfold findOne. intros Hnone Hc. rewrite list_find_app_r by done.
  simpl. by rewrite decide_True.
Qed.

(** One request for an existing product whose merge step succeeds: it is
    answered 200 with the merged cart, which is what the user's cart now
    is; only carts change. *)
Lemma addItem_referenced userId productId quantity d items' :
  is_Some (referenced productId d) →
  merge_item productId quantity (userItems userId d) = Some items' →
  ∃ w,
    serve (addItem userId productId quantity) [] d
      = (json 200 (CartJson {| cart_userId := userId; cart_items := items' |}), w)
    ∧ userItems userId (db w) = items'
    ∧ products (db w) = products d
    ∧ orders (db w) = orders d.
Proof.
  unfold referenced. intros [p Hp] Hmerge.
  destruct (castObjectId productId) as [id|] eqn:Hid; [|done].
  pose (d' := saveCart (fst <$> findOne userId (carts d))
                 {| cart_userId := userId; cart_items := items' |} d).
  exists {| db := d'; faults := []; trace := [d'] |}. subst d'. split.
  { unfold addItem. run_handler. unfold findById. rewrite Hid, Hp. simpl.
    unfold userItems in Hmerge.
    destruct (findOne userId (carts d)) as [[i c]|] eqn:Hfound; simpl.
    - rewrite Hmerge. simpl. rewrite (proj2 (findOne_Some _ _ _ _ Hfound)). reflexivity.
    - rewrite Hmerge. simpl. reflexivity. }
  unfold userItems in *. simpl.
  destruct (findOne userId (carts d)) as [[i c]|] eqn:Hfound; simpl.
  - by erewrite findOne_insert.
  - by rewrite findOne_app_new.
Qed.

Lemma canonical_referenced id d :
  canonical id → is_Some (products d !! id) → is_Some (referenced (toString id) d).
Proof. unfold referenced, canonical. by intros ->. Qed.

(** The same request with a numeric quantity and a canonical id, seen on
    the lines of the cart. *)
Lemma addItem_canonical_lines (userId : string) (id : ObjectId) (n : float) (d : Db) :
  canonical id →
  is_Some (products d !! id) →
  is_nan (bumpedQuantity n (linesFor id (userItems userId d))) = false →
  ∃ items' w,
    serve (addItem userId (toString id) (Num n)) [] d
      = (json 200 (CartJson {| cart_userId := userId; cart_items := items' |}), w)
    ∧ userItems userId (db w) = items'
    ∧ products (db w) = products d
    ∧ linesFor id items' = bump id n (linesFor id (userItems userId d))
    ∧ ∀ id', id' ≠ id → linesFor id' items' = linesFor id' (userItems userId d).
Proof.
  intros Hcan Hp Hnum.
  destruct (merge_item_canonical_Some id n (userItems userId d) Hcan Hnum) as [items' Hmerge].
  destruct (addItem_referenced userId (toString id) (Num n) d items'
              (canonical_referenced id d Hcan Hp) Hmerge)
    as (w & Hrun & Hitems & Hprod & _).
  destruct (merge_item_lines id (Num n) (userItems userId d) items' Hcan Hmerge)
    as [Hsame Hother].
  exists items', w. split_and!; [done..| |done].
  destruct (linesFor id (userItems userId d)) as [|x rest];
    destruct Hsame as (q & [-> _]%castNumber_inv & ->); done.
Qed.

(** A request whose product lookup misses or throws writes nothing,
    whichever persistence calls are rejected. *)
Lemma addItem_unreferenced_frame userId productId quantity fs d :
  referenced productId d = None →
  db (snd (serve (addItem userId productId quantity) fs d)) = d
  ∧ trace (snd (serve (addItem userId productId quantity) fs d)) = [].
Proof.
  unfold referenced. intros Hnone. unfold addItem. run_handler.
  destruct (rejected fs); simpl; [done|].
  unfold findById. destruct (castObjectId productId); simpl; [|done].
  by rewrite Hnone.
Qed.

(** What the route does for a [productId] that refers to no product of the
    catalog: 404 "Product not found" (NotFound) when the [productId] casts to
    an ObjectId, the route's 500 answer (Internal) when it does not; in both
    cases, whichever persistence calls are rejected, nothing is committed:
    no cart is created and no line is added or modified. *)
Lemma addItem_unknown_product_fails (userId productId : string) (quantity : Quantity) (d : Db) :
  referenced productId d = None →
  fst (serve (addItem userId productId quantity) [] d)
    = (if castObjectId productId is Some _
       then json 404 (Message "Product not found")
       else json 500 (Failure "Error adding to cart"))
  ∧ errorKind (fst (serve (addItem userId productId quantity) [] d))
    = Some (if castObjectId productId is Some _ then NotFound else Internal)
  ∧ ∀ fs, db (snd (serve (addItem userId productId quantity) fs d)) = d
          ∧ trace (snd (serve (addItem userId productId quantity) fs d)) = [].
Proof.
  intros Hnone.
  assert (fst (serve (addItem userId productId quantity) [] d)
          = (if castObjectId productId is Some _
             then json 404 (Message "Product not found")
             else json 500 (Failure "Error adding to cart"))) as Hrun.
  { unfold referenced in Hnone. unfold addItem. run_handler. unfold findById.
    destruct (castObjectId productId); simpl; [by rewrite Hnone|done]. }
  rewrite Hrun. split_and!.
  - done.
  - by destruct (castObjectId productId).
  - intros fs. by apply addItem_unreferenced_frame.
Qed.

(** An id of the right form that no product carries is answered 404. *)
Example addItem_unknown_id_404 :
  referenced "64b7f0a1c2d3e4f5a6b7c8d3" shop = None
  ∧ fst (serve (addItem "ann" "64b7f0a1c2d3e4f5a6b7c8d3" (Num 1)) [] shop)
    = json 404 (Message "Product not found").
Proof. split; by vm_compute. Qed.

(** C5 on the code.  The [productId] "xyz" refers to no product of the
    sample shop, and [addItem] does not answer NotFound for it: the string
    is no ObjectId, [findById] throws before the 404 guard is reached, and
    the route answers 500 "Error adding to cart" (Internal).  The database
    is left unchanged. *)
Theorem addItem_malformed_id_answers_500 :
  referenced "xyz" shop = None
  ∧ fst (serve (addItem "ann" "xyz" (Num 1)) [] shop)
    = json 500 (Failure "Error adding to cart")
  ∧ errorKind (fst (serve (addItem "ann" "xyz" (Num 1)) [] shop)) = Some Internal
  ∧ errorKind (fst (serve (addItem "ann" "xyz" (Num 1)) [] shop)) ≠ Some NotFound
  ∧ db (snd (serve (addItem "ann" "xyz" (Num 1)) [] shop)) = shop.
Proof. split_and!; by vm_compute. Qed.

(** C7, as the specification words it, fails: a quantity that is not
    positive does not make [addItem] answer InvalidState. *)
Lemma addItem_nonpositive_quantity_accepted :
  ¬ (∀ userId productId quantity d,
       is_Some (referenced productId d) →
       (quantity <=? 0)%float = true →
       errorKind (fst (serve (addItem userId productId (Num quantity)) [] d))
       = Some InvalidState
       ∧ db (snd (serve (addItem userId productId (Num quantity)) [] d)) = d).
Proof.
  intros Hclaim.
  destruct (Hclaim "ann" "64b7f0a1c2d3e4f5a6b7c8d1" 0%float shop) as [Hkind _].
  - vm_compute. eexists. reflexivity.
  - reflexivity.
  - vm_compute in Hkind. discriminate Hkind.
Qed.

(** A zero, a negative and a fractional quantity, on the sample shop: all
    three are answered 200 and stored as they add up. *)
Example addItem_zero_negative_fraction :
  addItems "ann" "64b7f0a1c2d3e4f5a6b7c8d1" [0; -2; 0.5]%float shop
  = ([ json 200 (CartJson {| cart_userId := "ann"; cart_items := [line P1 0] |});
       json 200 (CartJson {| cart_userId := "ann"; cart_items := [line P1 (-2)] |});
       json 200 (CartJson {| cart_userId := "ann"; cart_items := [line P1 (-1.5)] |}) ],
     {| products := products shop;
        carts := [ {| cart_userId := "ann"; cart_items := [line P1 (-1.5)] |} ];
        orders := [] |}).
Proof. by vm_compute. Qed.

(** A quantity of 0 for a product the cart already holds is answered 200 and
    leaves the cart as it was. *)
Example addItem_zero_keeps_cart :
  status (fst (serve (addItem "ann" "64b7f0a1c2d3e4f5a6b7c8d1" (Num 0)) [] shop_with_cart)) = 200
  ∧ carts (db (snd (serve (addItem "ann" "64b7f0a1c2d3e4f5a6b7c8d1" (Num 0)) [] shop_with_cart)))
    = carts shop_with_cart.
Proof. split; by vm_compute. Qed.

(** A quantity that is not a number in the request (the string "2") and a
    sum that is not a number: the first is stored as the route's [+=] makes
    it, the second is refused with 500 and nothing is written. *)
Example addItem_string_and_NaN :
  userItems "ann"
    (db (snd (serve (addItem "ann" "64b7f0a1c2d3e4f5a6b7c8d1"
                       (NotNum (λ x, if (x =? 3)%float then Some 32%float else None)
                          (Some 2%float))) [] shop_with_cart)))
  = [line P1 32; line P2 1]
  ∧ serve (addItem "ann" "64b7f0a1c2d3e4f5a6b7c8d1" (Num neg_infinity)) []
      {| products := products shop;
         carts := [ {| cart_userId := "ann"; cart_items := [line P1 infinity] |} ];
         orders := [] |}
    = (json 500 (Failure "Error adding to cart"),
       {| db := {| products := products shop;
                   carts := [ {| cart_userId := "ann"; cart_items := [line P1 infinity] |} ];
                   orders := [] |};
          faults := []; trace := [] |}).
Proof. split; by vm_compute. Qed.

(** C7, amended.  [addItem] does not validate the quantity.  For every user,
    every [productId] that refers to a product of the catalog, and every
    numeric quantity (zero, negative and fractional ones included) that is a
    number and whose double-precision sum with the quantity of any line of
    the cart whose product id prints as the [productId] is a number, the
    request is answered 200 with the merged cart, which becomes the user's
    cart: when no line's product id prints as the [productId], the cart with
    a line of that quantity appended; otherwise the cart with the quantity
    added, in double-precision arithmetic, to the first such line, and
    nothing else changed. *)
Theorem addItem_accepts_any_quantity (userId productId : string) (quantity : float) (d : Db) :
  is_Some (referenced productId d) →
  is_nan quantity = false →
  (∀ item, item ∈ userItems userId d →
           toString (item_productId item) = productId →
           is_nan (item_quantity item + quantity) = false) →
  ∃ id items' w,
    castObjectId productId = Some id
    ∧ serve (addItem userId productId (Num quantity)) [] d
      = (json 200 (CartJson {| cart_userId := userId; cart_items := items' |}), w)
    ∧ userItems userId (db w) = items'
    ∧ ((Forall (λ item, toString (item_productId item) ≠ productId) (userItems userId d)
        ∧ items' = userItems userId d ++ [line id quantity])
       ∨ ∃ j item,
           userItems userId d !! j = Some item
           ∧ toString (item_productId item) = productId
           ∧ (∀ k other, (k < j)%nat → userItems userId d !! k = Some other →
                         toString (item_productId other) ≠ productId)
           ∧ items' = <[j := line (item_productId item) (item_quantity item + quantity)]>
                        (userItems userId d)).
Proof.
  intros Href Hq Hsum.
  assert (∃ id, castObjectId productId = Some id) as [id Hid].
  { unfold referenced in Href. destruct (castObjectId productId); [by eexists|by destruct Href]. }
  assert (∃ items',
            merge_item productId (Num quantity) (userItems userId d) = Some items'
            ∧ ((Forall (λ item, toString (item_productId item) ≠ productId) (userItems userId d)
                ∧ items' = userItems userId d ++ [line id quantity])
               ∨ ∃ j item,
                   userItems userId d !! j = Some item
                   ∧ toString (item_productId item) = productId
                   ∧ (∀ k other, (k < j)%nat → userItems userId d !! k = Some other →
                                 toString (item_productId other) ≠ productId)
                   ∧ items' = <[j := line (item_productId item) (item_quantity item + quantity)]>
                                (userItems userId d))) as (items' & Hmerge & Hcases).
  { unfold merge_item, find_item.
    destruct (list_find _ (userItems userId d)) as [[j item]|] eqn:Hfind.
    - apply list_find_Some in Hfind as (Hj & Hitem & Hfirst). simpl.
      rewrite (castNumber_Some _ (Hsum item (list_elem_of_lookup_2 _ _ _ Hj) Hitem)).
      eexists. split; [done|]. right. exists j, item. split_and!; [done..| |done].
      intros k other Hlt Hk. by apply (Hfirst k).
    - apply list_find_None in Hfind. rewrite Hid. simpl. rewrite (castNumber_Some _ Hq).
      eexists. split; [done|]. by left. }
  destruct (addItem_referenced userId productId (Num quantity) d items' Href Hmerge)
    as (w & Hrun & Hitems & _).
  by exists id, items', w.
Qed.

Lemma addItem_accepts_any_quantity_witness :
  ∃ id items' w,
    castObjectId "64b7f0a1c2d3e4f5a6b7c8d1" = Some id
    ∧ serve (addItem "ann" "64b7f0a1c2d3e4f5a6b7c8d1" (Num (-5.5))) [] shop_with_cart
      = (json 200 (CartJson {| cart_userId := "ann"; cart_items := items' |}), w)
    ∧ userItems "ann" (db w) = items'
    ∧ ((Forall (λ item, toString (item_productId item) ≠ "64b7f0a1c2d3e4f5a6b7c8d1")
          (userItems "ann" shop_with_cart)
        ∧ items' = userItems "ann" shop_with_cart ++ [line id (-5.5)])
       ∨ ∃ j item,
           userItems "ann" shop_with_cart !! j = Some item
           ∧ toString (item_productId item) = "64b7f0a1c2d3e4f5a6b7c8d1"
           ∧ (∀ k other, (k < j)%nat → userItems "ann" shop_with_cart !! k = Some other →
                         toString (item_productId other) ≠ "64b7f0a1c2d3e4f5a6b7c8d1")
           ∧ items' = <[j := line (item_productId item) (item_quantity item + -5.5)]>
                        (userItems "ann" shop_with_cart)).
Proof.
  apply (addItem_accepts_any_quantity "ann" "64b7f0a1c2d3e4f5a6b7c8d1" (-5.5) shop_with_cart).
  - vm_compute. eexists. reflexivity.
  - reflexivity.
  - intros item Hin _. change (userItems "ann" shop_with_cart) with [line P1 3; line P2 1] in Hin.
    apply elem_of_cons in Hin as [->|Hin]; [reflexivity|].
    apply elem_of_cons in Hin as [->|Hin]; [reflexivity|].
    by apply elem_of_nil in Hin.
Defined.

(** The cart of the sample after that request: three of [P1] less five and
    a half. *)
Example addItem_negative_quantity :
  userItems "ann"
    (db (snd (serve (addItem "ann" "64b7f0a1c2d3e4f5a6b7c8d1" (Num (-5.5))) [] shop_with_cart)))
  = [line P1 (-2.5); line P2 1].
Proof. by vm_compute. Qed.

(** ** Repeated additions of one product *)

Lemma bump_fold_single id q0 quantities :
  fold_left (λ lines q, bump id q lines) quantities [line id q0]
  = [line id (fold_left PrimFloat.add quantities q0)].
Proof.
  revert q0. induction quantities as [|q quantities IH]; intros q0; simpl; [done|].
  apply IH.
Qed.

(** Requests that spell an existing product's id canonically, from a cart
    with one line for it, are all answered 200 as long as every partial sum
    is a number, and leave one line with the accumulated sum. *)
Lemma addItems_canonical_from userId id q0 quantities d :
  canonical id → is_Some (products d !! id) →
  linesFor id (userItems userId d) = [line id q0] →
  numericFrom q0 quantities = true →
  Forall (λ r, status r = 200) (addItems userId (toString id) quantities d).1
  ∧ linesFor id (userItems userId (addItems userId (toString id) quantities d).2)
    = [line id (fold_left PrimFloat.add quantities q0)].
Proof.
  intros Hcan. revert d q0.
  induction quantities as [|q quantities IH]; intros d q0 Hp Hline Hnum; simpl.
  - by split.
  - simpl in Hnum. apply andb_prop in Hnum as [_ Hnum].
    assert (is_nan (q0 + q) = false) as Hq.
    { destruct quantities; simpl in Hnum; apply andb_prop in Hnum as [H%negb_true_iff _]; done. }
    destruct (addItem_canonical_lines userId id q d Hcan Hp)
      as (items' & w & Hrun & Hitems & Hprod & Hsame & _).
    { by rewrite Hline. }
    rewrite Hrun. rewrite <- Hprod in Hp.
    specialize (IH (db w) (q0 + q)%float Hp).
    destruct (addItems userId (toString id) quantities (db w)) as [rs d'].
    simpl in *. destruct IH as [Hok Hlines].
    + by rewrite Hitems, Hsame, Hline.
    + done.
    + split; [by constructor|done].
Qed.

(** With canonical spelling the cart merges: starting from a cart (or no
    cart) without a line for the product, any non-empty run of additions
    whose partial sums are numbers leaves exactly one line for it, carrying
    the sum of the quantities accumulated in request order. *)
Lemma addItems_canonical_single_line userId id quantities d :
  canonical id → is_Some (products d !! id) →
  linesFor id (userItems userId d) = [] →
  quantities ≠ [] →
  numericRun quantities = true →
  Forall (λ r, status r = 200) (addItems userId (toString id) quantities d).1
  ∧ linesFor id (userItems userId (addItems userId (toString id) quantities d).2)
    = [line id (total quantities)].
Proof.
  intros Hcan Hp Hnone Hqs Hnum.
  destruct quantities as [|q quantities]; [done|]. simpl in *.
  assert (is_nan q = false) as Hq.
  { destruct quantities; simpl in Hnum; apply andb_prop in Hnum as [H%negb_true_iff _]; done. }
  destruct (addItem_canonical_lines userId id q d Hcan Hp)
    as (items' & w & Hrun & Hitems & Hprod & Hsame & _).
  { by rewrite Hnone. }
  rewrite Hrun. rewrite <- Hprod in Hp.
  destruct (addItems_canonical_from userId id q quantities (db w) Hcan Hp) as [Hok Hlines].
  - by rewrite Hitems, Hsame, Hnone.
  - done.
  - destruct (addItems userId (toString id) quantities (db w)) as [rs d'].
    simpl in *. split; [by constructor|done].
Qed.

(** C2 on the code.  Two successful additions of one unit of the product
    [P1], both naming it by the upper-case spelling of its id, leave the
    user's cart with two lines for [P1] of quantity 1 each, instead of one
    line of quantity 2: the lookup of the existing line compares the stored
    id's lower-case [toString()] with the request's string. *)
Theorem addItem_uppercase_id_duplicates_line :
  referenced "64B7F0A1C2D3E4F5A6B7C8D1" shop = Some (grocery "apple" 2)
  ∧ addItems "ann" "64B7F0A1C2D3E4F5A6B7C8D1" [1; 1]%float shop
    = ([ json 200 (CartJson {| cart_userId := "ann"; cart_items := [line P1 1] |});
         json 200 (CartJson {| cart_userId := "ann"; cart_items := [line P1 1; line P1 1] |}) ],
       {| products := products shop;
          carts := [ {| cart_userId := "ann"; cart_items := [line P1 1; line P1 1] |} ];
          orders := [] |})
  ∧ linesFor P1
      (userItems "ann" (addItems "ann" "64B7F0A1C2D3E4F5A6B7C8D1" [1; 1]%float shop).2)
    ≠ [line P1 (total [1; 1]%float)].
Proof. split_and!; by vm_compute. Qed.

(** The same two additions with the id spelled as the catalog prints it. *)
Example addItem_canonical_id_merges :
  (addItems "ann" "64b7f0a1c2d3e4f5a6b7c8d1" [1; 1]%float shop).2
  = {| products := products shop;
       carts := [ {| cart_userId := "ann"; cart_items := [line P1 2] |} ];
       orders := [] |}.
Proof. by vm_compute. Qed.

(** * Further properties of the routes *)

Ltac run_route :=
  cbv [serve serveAs try_catch try_catch_as bind query commit commitIf await orThrow ret throw];
  simpl.

(** ** GET /api/cart *)

Lemma items_map_populate ps items :
  Forall (inCatalog ps) items →
  items_map (populate ps items) = Some (lineView ps <$> items).
Proof.
  induction 1 as [|item items [p Hp] _ IH]; simpl; [done|].
  unfold cartLine, lineView. simpl. rewrite IH, Hp. done.
Qed.

Lemma getCart_run userId d i c :
  findOne userId (carts d) = Some (i, c) →
  Forall (inCatalog (products d)) (cart_items c) →
  fst (serve (getCart userId) [] d)
  = json 200 (CartLines (lineView (products d) <$> cart_items c)).
Proof.
  intros Hfound Hall. unfold getCart. run_route.
  unfold findOnePopulated. rewrite Hfound. simpl.
  by rewrite (items_map_populate _ _ Hall).
Qed.

(** X1. When every line of the user's cart refers to a product of the
    catalog, [GET /api/cart] answers 200 with one entry per line, in cart
    order, carrying the line's product id and quantity and the product's
    current name, price and image. *)
Theorem getCart_lists_lines (userId : string) (d : Db) (i : nat) (c : Cart) :
  findOne userId (carts d) = Some (i, c) →
  Forall (inCatalog (products d)) (cart_items c) →
  fst (serve (getCart userId) [] d)
  = json 200 (CartLines (lineView (products d) <$> cart_items c)).
Proof. apply getCart_run. Qed.

Lemma getCart_lists_lines_witness :
  fst (serve (getCart "ann") [] shop_with_cart)
  = json 200 (CartLines (lineView (products shop_with_cart) <$> [line P1 3; line P2 1])).
Proof.
  apply (getCart_lists_lines "ann" shop_with_cart 0
           {| cart_userId := "ann"; cart_items := [line P1 3; line P2 1] |}).
  - reflexivity.
  - repeat constructor; vm_compute; eexists; reflexivity.
Defined.

(** ** POST /api/cart under rejected calls *)

(** What a request to add an item leaves behind, under every fault
    schedule: nothing, or the merged cart of the user. *)
Lemma addItem_runs userId productId quantity fs d :
  (db (snd (serve (addItem userId productId quantity) fs d)) = d
   ∧ trace (snd (serve (addItem userId productId quantity) fs d)) = []
   ∧ status (fst (serve (addItem userId productId quantity) fs d)) ≠ 200)
  ∨ (∃ items',
        merge_item productId quantity (userItems userId d) = Some items'
        ∧ db (snd (serve (addItem userId productId quantity) fs d))
          = saveCart (fst <$> findOne userId (carts d))
              {| cart_userId := userId; cart_items := items' |} d
        ∧ fst (serve (addItem userId productId quantity) fs d)
          = json 200 (CartJson {| cart_userId := userId; cart_items := items' |})).
Proof.
  unfold addItem. run_route.
  destruct (rejected fs); simpl; [by left|].
  destruct (findById productId d) as [[p|]|]; simpl; [|by left..].
  destruct (rejected (tail fs)); simpl; [by left|].
  unfold userItems.
  destruct (findOne userId (carts d)) as [[i c]|] eqn:Hfound; simpl.
  - destruct (merge_item productId quantity (cart_items c)) as [items'|]; simpl; [|by left].
    destruct (rejected (tail (tail fs))); simpl; [by left|].
    right. exists items'. rewrite (proj2 (findOne_Some _ _ _ _ Hfound)). done.
  - destruct (merge_item productId quantity []) as [items'|]; simpl; [|by left].
    destruct (rejected (tail (tail fs))); simpl; [by left|].
    right. by exists items'.
Qed.

Lemma findOne_saveCart userId items' d :
  userItems userId
    (saveCart (fst <$> findOne userId (carts d))
       {| cart_userId := userId; cart_items := items' |} d) = items'.
Proof.
  unfold userItems. simpl.
  destruct (findOne userId (carts d)) as [[i c]|] eqn:Hfound; simpl.
  - by erewrite findOne_insert.
  - by rewrite findOne_app_new.
Qed.

(** X2. [POST /api/cart] is all or nothing, whichever persistence calls are
    rejected: either it answers 200 and the user's cart is the merged cart
    it answers with, or it answers another status and the database is
    exactly as before, with nothing committed. *)
Theorem addItem_all_or_nothing (userId productId : string) (quantity : Quantity)
    (fs : list bool) (d : Db) :
  (status (fst (serve (addItem userId productId quantity) fs d)) = 200
   ∧ body (fst (serve (addItem userId productId quantity) fs d))
     = CartJson {| cart_userId := userId;
                   cart_items := userItems userId
                                   (db (snd (serve (addItem userId productId quantity) fs d))) |}
   ∧ merge_item productId quantity (userItems userId d)
     = Some (userItems userId (db (snd (serve (addItem userId productId quantity) fs d)))))
  ∨ (status (fst (serve (addItem userId productId quantity) fs d)) ≠ 200
     ∧ db (snd (serve (addItem userId productId quantity) fs d)) = d
     ∧ trace (snd (serve (addItem userId productId quantity) fs d)) = []).
Proof.
  destruct (addItem_runs userId productId quantity fs d)
    as [(Hdb & Htrace & Hstatus)|(items' & Hmerge & Hdb & Hr)].
  - by right.
  - left. rewrite Hr, Hdb, findOne_saveCart. done.
Qed.

(** Writing a cart of the same user at the user's position, or appending a
    cart of a user to the collection, does not move the first cart of
    anybody else. *)
Lemma list_find_insert_same {A} (P : A → Prop) `{!∀ x, Decision (P x)} (l : list A) i x y :
  l !! i = Some x → (P x ↔ P y) → (P y → x = y) →
  list_find P (<[i := y]> l) = list_find P l.
Proof.
  revert i. induction l as [|z l IH]; intros i Hi Hiff Heq; [done|].
  destruct i as [|i]; simpl in *.
  - injection Hi as ->. destruct (decide (P y)) as [Hy|Hy].
    + rewrite (Heq Hy). by rewrite decide_True.
    + by rewrite !decide_False by tauto.
  - destruct (decide (P z)); [done|]. by rewrite (IH i Hi Hiff Heq).
Qed.

Lemma findOne_saveCart_other userId other items' d :
  other ≠ userId →
  findOne other
    (carts (saveCart (fst <$> findOne userId (carts d))
              {| cart_userId := userId; cart_items := items' |} d))
  = findOne other (carts d).
Proof.
  intros Hne. simpl.
  destruct (findOne userId (carts d)) as [[i c]|] eqn:Hfound; simpl.
  - destruct (findOne_Some _ _ _ _ Hfound) as [Hi Hc].
    unfold findOne. apply (list_find_insert_same _ _ i c); [done|simpl|simpl].
    + rewrite Hc. done.
    + intros. congruence.
  - unfold findOne.
    destruct (list_find (λ c, cart_userId c = other) (carts d)) as [[j c]|] eqn:Hother.
    + by apply list_find_app_l.
    + rewrite list_find_app_r by done. simpl. by rewrite decide_False by (simpl; congruence).
Qed.

(** X3. Adding to one user's cart never touches another user's cart,
    whichever persistence calls are rejected: for every other user the first
    cart found, and its position, are the same before and after. *)
Theorem addItem_other_carts_untouched (userId other productId : string)
    (quantity : Quantity) (fs : list bool) (d : Db) :
  other ≠ userId →
  findOne other (carts (db (snd (serve (addItem userId productId quantity) fs d))))
  = findOne other (carts d).
Proof.
  intros Hne.
  destruct (addItem_runs userId productId quantity fs d)
    as [(-> & _)|(items' & _ & -> & _)]; [done|].
  by apply findOne_saveCart_other.
Qed.

Lemma addItem_other_carts_untouched_witness :
  findOne "ann" (carts (db (snd (serve (addItem "bob" "64b7f0a1c2d3e4f5a6b7c8d2" (Num 4)) []
                                   shop_with_cart))))
  = findOne "ann" (carts shop_with_cart).
Proof.
  apply (addItem_other_carts_untouched "bob" "ann" "64b7f0a1c2d3e4f5a6b7c8d2" (Num 4) []
           shop_with_cart).
  discriminate.
Defined.

(** ** POST /api/order under rejected calls *)

(** The writes of a checkout, with the cart they concern. *)
Lemma placeOrder_writes userId address paymentMethod fs d :
  db (snd (serve (placeOrder userId address paymentMethod) fs d)) = d
  ∨ ∃ i c order,
      findOne userId (carts d) = Some (i, c)
      ∧ (db (snd (serve (placeOrder userId address paymentMethod) fs d)) = saveOrder order d
         ∨ db (snd (serve (placeOrder userId address paymentMethod) fs d))
           = saveCart (Some i) (emptied c) (saveOrder order d)).
Proof.
  unfold placeOrder. run_route.
  destruct (rejected fs); simpl; [by left|].
  unfold findOnePopulated.
  destruct (findOne userId (carts d)) as [[i c]|] eqn:Hfound; simpl; [|by left].
  destruct (length (populate (products d) (cart_items c)) =? 0)%nat; simpl; [by left|].
  destruct (reduce _ 0) as [total|]; simpl; [|by left].
  destruct (newOrder _ _ _ _ _) as [order|]; simpl; [|by left].
  destruct (rejected (tail fs)); simpl; [by left|].
  right. exists i, c, order. split; [done|].
  destruct (rejected (tail (tail fs))); simpl; [by left|by right].
Qed.

(** A checkout whose cart is found, is not empty, totals and makes a valid
    order, under every fault schedule: each rejected call stops it where it
    is. *)
Lemma placeOrder_steps userId address paymentMethod fs d i c sum order :
  findOne userId (carts d) = Some (i, c) →
  cart_items c ≠ [] →
  reduce (populate (products d) (cart_items c)) 0 = Some sum →
  newOrder userId (populate (products d) (cart_items c)) sum address paymentMethod
  = Some order →
  serve (placeOrder userId address paymentMethod) fs d
  = if rejected fs
    then (json 500 (Failure "Error placing order"),
          {| db := d; faults := tail fs; trace := [] |})
    else if rejected (tail fs)
    then (json 500 (Failure "Error placing order"),
          {| db := d; faults := tail (tail fs); trace := [] |})
    else if rejected (tail (tail fs))
    then (json 500 (Failure "Error placing order"),
          {| db := saveOrder order d; faults := tail (tail (tail fs));
             trace := [saveOrder order d] |})
    else (json 201 (OrderPlaced "Order placed successfully" order),
          {| db := saveCart (Some i) (emptied c) (saveOrder order d);
             faults := tail (tail (tail fs));
             trace := [ saveOrder order d;
                        saveCart (Some i) (emptied c) (saveOrder order d) ] |}).
Proof.
  intros Hfound Hitems Hsum Horder.
  unfold placeOrder. run_route.
  destruct (rejected fs); simpl; [done|].
  unfold findOnePopulated. rewrite Hfound. simpl.
  rewrite populate_length.
  replace (length (cart_items c) =? 0)%nat with false by (by destruct (cart_items c)).
  rewrite Hsum. simpl. rewrite Horder. simpl.
  destruct (rejected (tail fs)); simpl; [done|].
  by destruct (rejected (tail (tail fs))).
Qed.

(** A checkout answered 201 found the user's cart, not empty, totalled it
    and made the order it answers with. *)
Lemma placeOrder_success_inv userId address paymentMethod d message order :
  fst (serve (placeOrder userId address paymentMethod) [] d)
  = json 201 (OrderPlaced message order) →
  ∃ i c sum,
    findOne userId (carts d) = Some (i, c)
    ∧ cart_items c ≠ []
    ∧ reduce (populate (products d) (cart_items c)) 0 = Some sum
    ∧ newOrder userId (populate (products d) (cart_items c)) sum address paymentMethod
      = Some order.
Proof.
  unfold placeOrder. run_route. unfold findOnePopulated.
  destruct (findOne userId (carts d)) as [[i c]|] eqn:Hfound; simpl; [|done].
  rewrite populate_length.
  destruct (length (cart_items c) =? 0)%nat eqn:Hlen; simpl; [done|].
  destruct (reduce _ _) as [sum|] eqn:Hsum; simpl; [|done].
  destruct (newOrder _ _ _ _ _) as [order'|] eqn:Horder; simpl; [|done].
  intros [= _ <-]. exists i, c, sum. split_and!; try done.
  intros Hc. by rewrite Hc in Hlen.
Qed.

(** One checkout with no rejected call, in full. *)
Lemma placeOrder_reliable_run userId address paymentMethod d i c :
  findOne userId (carts d) = Some (i, c) →
  cart_items c ≠ [] →
  Forall (inCatalog (products d)) (cart_items c) →
  is_nan (linesTotal (products d) (cart_items c)) = false →
  serve (placeOrder userId address paymentMethod) [] d
  = (json 201 (OrderPlaced "Order placed successfully"
                 (checkoutOrder userId address paymentMethod (products d) c)),
     {| db := saveCart (Some i) (emptied c)
                (saveOrder (checkoutOrder userId address paymentMethod (products d) c) d);
        faults := [];
        trace := [ saveOrder (checkoutOrder userId address paymentMethod (products d) c) d;
                   saveCart (Some i) (emptied c)
                     (saveOrder (checkoutOrder userId address paymentMethod (products d) c) d) ] |}).
Proof.
  intros Hfound Hitems Hall Hnum.
  rewrite (placeOrder_steps userId address paymentMethod [] d i c
             (linesTotal (products d) (cart_items c))
             (checkoutOrder userId address paymentMethod (products d) c)); try done.
  - by apply reduce_populate.
  - unfold newOrder.
    rewrite (castItems_populate _ _ Hall (fold_addLine_numeric _ _ _ Hnum)).
    by rewrite (castNumber_Some _ Hnum).
Qed.

(** X4. A checkout never touches another user's cart, whichever persistence
    calls are rejected: for every other user the first cart found, and its
    position, are the same before and after. *)
Theorem placeOrder_other_carts_untouched (userId other address paymentMethod : string)
    (fs : list bool) (d : Db) :
  other ≠ userId →
  findOne other (carts (db (snd (serve (placeOrder userId address paymentMethod) fs d))))
  = findOne other (carts d).
Proof.
  intros Hne.
  destruct (placeOrder_writes userId address paymentMethod fs d)
    as [->|(i & c & order & Hfound & [->| ->])]; [done..|].
  destruct (findOne_Some _ _ _ _ Hfound) as [Hi Hc]. simpl.
  unfold findOne. apply (list_find_insert_same _ _ i c); [done|simpl; done|simpl].
  intros. congruence.
Qed.

Lemma placeOrder_other_carts_untouched_witness :
  findOne "bob"
    (carts (db (snd (serve (placeOrder "ann" "1 Main St" "cash") []
                       (db (snd (serve (addItem "bob" "64b7f0a1c2d3e4f5a6b7c8d2" (Num 4)) []
                                   shop_with_cart)))))))
  = findOne "bob"
      (carts (db (snd (serve (addItem "bob" "64b7f0a1c2d3e4f5a6b7c8d2" (Num 4)) [] shop_with_cart)))).
Proof.
  apply (placeOrder_other_carts_untouched "ann" "bob" "1 Main St" "cash" []).
  discriminate.
Defined.

(** X5. No cart or order route ever writes the product collection, whichever
    persistence calls are rejected: in particular a checkout does not
    decrement the stock of what it sells. *)
Theorem routes_never_write_products (userId productId address paymentMethod : string)
    (quantity : Quantity) (fs : list bool) (d : Db) :
  products (db (snd (serve (getCart userId) fs d))) = products d
  ∧ products (db (snd (serve (addItem userId productId quantity) fs d))) = products d
  ∧ products (db (snd (serve (placeOrder userId address paymentMethod) fs d))) = products d.
Proof.
  split_and!.
  - by rewrite (proj1 (getCart_frame userId fs d)).
  - apply addItem_frame.
  - destruct (placeOrder_writes userId address paymentMethod fs d)
      as [->|(i & c & order & _ & [->| ->])]; done.
Qed.

(** ** At most one cart per user *)

Lemma saveCart_oneCartPerUser userId items' d :
  oneCartPerUser d →
  oneCartPerUser (saveCart (fst <$> findOne userId (carts d))
                    {| cart_userId := userId; cart_items := items' |} d).
Proof.
  unfold oneCartPerUser. intros Hnodup. simpl.
  destruct (findOne userId (carts d)) as [[i c]|] eqn:Hfound; simpl.
  - destruct (findOne_Some _ _ _ _ Hfound) as [Hi Hc].
    rewrite list_fmap_insert. simpl. rewrite list_insert_id; [done|].
    by rewrite list_lookup_fmap, Hi, <- Hc.
  - rewrite fmap_app. simpl. apply NoDup_app. split_and!; [done| |apply NoDup_singleton].
    intros u Hu ->%list_elem_of_singleton.
    apply list_elem_of_fmap in Hu as (c & Hc & Hin).
    unfold findOne in Hfound. rewrite list_find_None, Forall_forall in Hfound.
    by apply (Hfound c Hin).
Qed.

Lemma emptied_oneCartPerUser i c order d :
  carts d !! i = Some c →
  oneCartPerUser d →
  oneCartPerUser (saveCart (Some i) (emptied c) (saveOrder order d)).
Proof.
  unfold oneCartPerUser. intros Hi Hnodup. simpl.
  rewrite list_fmap_insert. simpl. rewrite list_insert_id; [done|].
  by rewrite list_lookup_fmap, Hi.
Qed.

Lemma step_oneCartPerUser d e :
  keepsCarts e → oneCartPerUser d → oneCartPerUser (step d e).
Proof.
  intros Hkeeps Hone. destruct e as [u fs|u p q fs|u a m fs|edit|edit]; simpl.
  - by rewrite (proj1 (getCart_frame u fs d)).
  - destruct (addItem_runs u p q fs d) as [(-> & _)|(items' & _ & -> & _)]; [done|].
    by apply saveCart_oneCartPerUser.
  - destruct (placeOrder_writes u a m fs d) as [->|(i & c & order & Hfound & [->| ->])];
      [done..|].
    apply emptied_oneCartPerUser; [|done]. by apply (findOne_Some u).
  - done.
  - done.
Qed.

(** X6. The routes keep at most one cart per user: if no two carts of the
    database have the same [userId], the same holds after any sequence of
    requests to the cart and order routes, under any schedule of rejected
    persistence calls, and of edits of the catalog. *)
Theorem routes_keep_one_cart_per_user (es : list Event) (d : Db) :
  Forall keepsCarts es →
  oneCartPerUser d →
  oneCartPerUser (run es d).
Proof.
  unfold run. intros Hes. revert d.
  induction Hes as [|e es He _ IH]; intros d Hone; simpl; [done|].
  by apply IH, step_oneCartPerUser.
Qed.

Lemma routes_keep_one_cart_per_user_witness :
  oneCartPerUser
    (run [ AddItem "ann" "64b7f0a1c2d3e4f5a6b7c8d1" (Num 1) [];
           AddItem "bob" "64b7f0a1c2d3e4f5a6b7c8d2" (Num 2) [];
           PlaceOrder "ann" "1 Main St" "cash" [false; false; true];
           AddItem "ann" "64b7f0a1c2d3e4f5a6b7c8d2" (Num 1) []; GetCart "bob" [true] ] shop).
Proof.
  apply routes_keep_one_cart_per_user.
  - repeat constructor.
  - vm_compute. constructor.
Defined.

(** ** Checkout, interrupted and repeated *)

(** X7. For a cart that checks out when no call is rejected: when the save
    of the emptied cart is rejected, checkout answers 500 although the order
    is stored, and the cart keeps its lines; the same request sent again
    then answers 201 and stores the same order a second time. *)
Theorem placeOrder_retry_duplicates_order (userId address paymentMethod message : string)
    (d : Db) (order : Order) :
  fst (serve (placeOrder userId address paymentMethod) [] d)
  = json 201 (OrderPlaced message order) →
  serve (placeOrder userId address paymentMethod) [false; false; true] d
  = (json 500 (Failure "Error placing order"),
     {| db := saveOrder order d; faults := []; trace := [saveOrder order d] |})
  ∧ carts (saveOrder order d) = carts d
  ∧ fst (serve (placeOrder userId address paymentMethod) [] (saveOrder order d))
    = json 201 (OrderPlaced "Order placed successfully" order)
  ∧ orders (db (snd (serve (placeOrder userId address paymentMethod) [] (saveOrder order d))))
    = orders d ++ [order; order].
Proof.
  intros (i & c & sum & Hfound & Hitems & Hsum & Horder)%placeOrder_success_inv.
  split_and!.
  - by rewrite (placeOrder_steps userId address paymentMethod _ d i c sum order).
  - done.
  - by rewrite (placeOrder_steps userId address paymentMethod [] (saveOrder order d) i c sum order).
  - rewrite (placeOrder_steps userId address paymentMethod [] (saveOrder order d) i c sum order)
      by done.
    simpl. by rewrite <- app_assoc.
Qed.

Lemma placeOrder_retry_duplicates_order_witness :
  serve (placeOrder "ann" "1 Main St" "cash") [false; false; true] shop_with_cart
  = (json 500 (Failure "Error placing order"),
     {| db := saveOrder sample_order shop_with_cart; faults := [];
        trace := [saveOrder sample_order shop_with_cart] |})
  ∧ carts (saveOrder sample_order shop_with_cart) = carts shop_with_cart
  ∧ fst (serve (placeOrder "ann" "1 Main St" "cash") [] (saveOrder sample_order shop_with_cart))
    = json 201 (OrderPlaced "Order placed successfully" sample_order)
  ∧ orders (db (snd (serve (placeOrder "ann" "1 Main St" "cash") []
                       (saveOrder sample_order shop_with_cart))))
    = orders shop_with_cart ++ [sample_order; sample_order].
Proof.
  apply (placeOrder_retry_duplicates_order "ann" "1 Main St" "cash" "Order placed successfully"
           shop_with_cart sample_order).
  vm_compute. reflexivity.
Defined.

(** X8. After a successful checkout the cart document is still there, empty:
    a second checkout by the same user, whatever address and payment method
    it gives, answers 400 "Cart is empty" and writes nothing. *)
Theorem placeOrder_twice_second_is_rejected
    (userId address paymentMethod address' paymentMethod' message : string)
    (d : Db) (order : Order) :
  fst (serve (placeOrder userId address paymentMethod) [] d)
  = json 201 (OrderPlaced message order) →
  serve (placeOrder userId address' paymentMethod') []
    (db (snd (serve (placeOrder userId address paymentMethod) [] d)))
  = (json 400 (Message "Cart is empty"),
     {| db := db (snd (serve (placeOrder userId address paymentMethod) [] d));
        faults := []; trace := [] |})
  ∧ length (carts (db (snd (serve (placeOrder userId address paymentMethod) [] d))))
    = length (carts d).
Proof.
  intros (i & c & sum & Hfound & Hitems & Hsum & Horder)%placeOrder_success_inv.
  rewrite (placeOrder_steps userId address paymentMethod [] d i c sum order) by done.
  cbn [snd db rejected tail]. split.
  - unfold placeOrder. run_route. unfold findOnePopulated.
    cbn [saveCart saveOrder carts].
    erewrite findOne_insert; [|done|]; simpl.
    + done.
    + by apply (findOne_Some _ _ _ _ Hfound).
  - simpl. by rewrite length_insert.
Qed.

Lemma placeOrder_twice_second_is_rejected_witness :
  serve (placeOrder "ann" "2 Side St" "card") []
    (db (snd (serve (placeOrder "ann" "1 Main St" "cash") [] shop_with_cart)))
  = (json 400 (Message "Cart is empty"),
     {| db := db (snd (serve (placeOrder "ann" "1 Main St" "cash") [] shop_with_cart));
        faults := []; trace := [] |})
  ∧ length (carts (db (snd (serve (placeOrder "ann" "1 Main St" "cash") [] shop_with_cart))))
    = length (carts shop_with_cart).
Proof.
  apply (placeOrder_twice_second_is_rejected "ann" "1 Main St" "cash" "2 Side St" "card"
           "Order placed successfully" shop_with_cart sample_order).
  vm_compute. reflexivity.
Defined.

(** ** A first item, seen and checked out *)

(** The database after a user without a cart adds a product by its
    canonical id, with a numeric quantity. *)
Lemma addItem_first_item userId id quantity d :
  canonical id → is_Some (products d !! id) →
  findOne userId (carts d) = None →
  is_nan quantity = false →
  db (snd (serve (addItem userId (toString id) (Num quantity)) [] d))
  = {| products := products d;
       carts := carts d ++ [ {| cart_userId := userId; cart_items := [line id quantity] |} ];
       orders := orders d |}.
Proof.
  intros Hcan [p Hp] Hnone Hq.
  unfold addItem. run_route. unfold findById. rewrite Hcan, Hp. simpl.
  rewrite Hnone. simpl. unfold merge_item. simpl. rewrite Hcan. simpl.
  rewrite (castNumber_Some _ Hq). simpl. reflexivity.
Qed.

(** X9. When a user who has no cart adds a product of the catalog, named by
    its canonical id, the cart route then shows exactly one line: that
    product's id, name, price and image, with the quantity of the request. *)
Theorem addItem_then_getCart (userId : string) (id : ObjectId) (quantity : float)
    (p : Product) (d : Db) :
  canonical id →
  products d !! id = Some p →
  findOne userId (carts d) = None →
  is_nan quantity = false →
  fst (serve (getCart userId) []
         (db (snd (serve (addItem userId (toString id) (Num quantity)) [] d))))
  = json 200 (CartLines [ {| view_id := id;
                             view_name := product_name p;
                             view_price := product_price p;
                             view_quantity := quantity;
                             view_image := product_image p |} ]).
Proof.
  intros Hcan Hp Hnone Hq.
  rewrite (addItem_first_item userId id quantity d Hcan (mk_is_Some _ _ Hp) Hnone Hq).
  rewrite (getCart_run userId _ (length (carts d))
             {| cart_userId := userId; cart_items := [line id quantity] |}).
  - unfold lineView, line. cbn -[lookup]. by rewrite Hp.
  - simpl. by apply findOne_app_new.
  - simpl. repeat constructor. by exists p.
Qed.

Lemma addItem_then_getCart_witness :
  fst (serve (getCart "ann") []
         (db (snd (serve (addItem "ann" (toString P2) (Num 4)) [] shop))))
  = json 200 (CartLines [ {| view_id := P2;
                             view_name := product_name (grocery "pear" 5);
                             view_price := product_price (grocery "pear" 5);
                             view_quantity := 4;
                             view_image := product_image (grocery "pear" 5) |} ]).
Proof.
  apply (addItem_then_getCart "ann" P2 4 (grocery "pear" 5) shop).
  - reflexivity.
  - vm_compute. reflexivity.
  - reflexivity.
  - reflexivity.
Defined.

(** X10. When a user who has no cart adds a priced product of the catalog,
    named by its canonical id, and checks out, the order holds that one line
    and its total is what the route's fold computes in double-precision
    arithmetic, 0 + price × quantity, provided that is a number. *)
Theorem addItem_then_placeOrder (userId address paymentMethod : string) (id : ObjectId)
    (quantity price : float) (p : Product) (d : Db) :
  canonical id →
  products d !! id = Some p →
  product_price p = Some price →
  findOne userId (carts d) = None →
  is_nan (0 + price * quantity) = false →
  fst (serve (placeOrder userId address paymentMethod) []
         (db (snd (serve (addItem userId (toString id) (Num quantity)) [] d))))
  = json 201 (OrderPlaced "Order placed successfully"
                {| order_userId := userId;
                   order_items := [line id quantity];
                   order_totalPrice := (0 + price * quantity)%float;
                   order_address := address;
                   order_paymentMethod := paymentMethod;
                   order_status := "Pending" |}).
Proof.
  intros Hcan Hp Hprice Hnone Hnum.
  assert (is_nan quantity = false) as Hq.
  { destruct (is_nan quantity) eqn:Hq; [|done].
    by rewrite (is_nan_add_r _ _ (is_nan_mul_r price _ Hq)) in Hnum. }
  rewrite (addItem_first_item userId id quantity d Hcan (mk_is_Some _ _ Hp) Hnone Hq).
  assert (linesTotal (products d) [line id quantity] = (0 + price * quantity)%float) as Htotal.
  { unfold linesTotal, addLine, unitPrice, line. cbn -[lookup PrimFloat.add PrimFloat.mul].
    rewrite Hp. cbn -[PrimFloat.add PrimFloat.mul]. by rewrite Hprice. }
  rewrite (placeOrder_reliable_run userId address paymentMethod _ (length (carts d))
             {| cart_userId := userId; cart_items := [line id quantity] |}).
  - unfold checkoutOrder. cbn [fst cart_items products]. by rewrite Htotal.
  - simpl. by apply findOne_app_new.
  - done.
  - simpl. repeat constructor. by exists p.
  - cbn [cart_items products]. by rewrite Htotal.
Qed.

Lemma addItem_then_placeOrder_witness :
  fst (serve (placeOrder "ann" "1 Main St" "cash") []
         (db (snd (serve (addItem "ann" (toString P2) (Num 2.5)) [] shop))))
  = json 201 (OrderPlaced "Order placed successfully"
                {| order_userId := "ann";
                   order_items := [line P2 2.5];
                   order_totalPrice := (0 + 5 * 2.5)%float;
                   order_address := "1 Main St";
                   order_paymentMethod := "cash";
                   order_status := "Pending" |}).
Proof.
  apply (addItem_then_placeOrder "ann" "1 Main St" "cash" P2 2.5 5 (grocery "pear" 5) shop).
  - reflexivity.
  - vm_compute. reflexivity.
  - reflexivity.
  - reflexivity.
  - reflexivity.
Defined.

(** ** Authentication middleware *)

Lemma str_split_noSpace s : noSpace s = true → str_split " " s = [s].
Proof.
  induction s as [|c s IH]; simpl; [done|].
  intros [Hc Hs]%andb_prop. apply negb_true_iff in Hc. rewrite Hc.
  by rewrite (IH Hs).
Qed.

Lemma str_split_app a b :
  noSpace a = true → str_split " " (a +:+ " " +:+ b) = a :: str_split " " b.
Proof.
  induction a as [|c a IH]; simpl; [done|].
  intros [Hc Ha]%andb_prop. apply negb_true_iff in Hc. rewrite Hc.
  by rewrite (IH Ha).
Qed.

(** The second piece of a header made of a scheme word, a space and a
    token, whatever follows the token after another space. *)
Lemma headerToken_plain scheme token :
  noSpace scheme = true → noSpace token = true →
  headerToken (Some (scheme +:+ " " +:+ token)) = Some token.
Proof.
  intros Hs Ht. unfold headerToken.
  by rewrite (str_split_app _ _ Hs), (str_split_noSpace _ Ht).
Qed.

Lemma headerToken_extra scheme token extra :
  noSpace scheme = true → noSpace token = true →
  headerToken (Some (scheme +:+ " " +:+ token +:+ " " +:+ extra)) = Some token.
Proof.
  intros Hs Ht. unfold headerToken.
  by rewrite (str_split_app _ _ Hs), (str_split_app _ _ Ht).
Qed.

Lemma eqb_nonempty token : token ≠ "" → String.eqb token "" = false.
Proof. intros Hne. by apply String.eqb_neq. Qed.

(** X11. A request whose [Authorization] header is a word, a space and a
    token that verifies reaches the route, which runs as the user the token
    names.  The word before the space is not looked at (it need not be
    "Bearer"), and neither is anything that follows the token after another
    space. *)
Theorem authMiddleware_accepts (L : Libraries) (scheme token extra id : string)
    (next : string → World → Response * World) (w : World) :
  noSpace scheme = true →
  noSpace token = true →
  token ≠ "" →
  jwt_verify L token = Some id →
  authMiddleware L (Some (scheme +:+ " " +:+ token)) next w = next id w
  ∧ authMiddleware L (Some (scheme +:+ " " +:+ token +:+ " " +:+ extra)) next w = next id w.
Proof.
  intros Hs Ht Hne Hverify. unfold authMiddleware.
  rewrite (headerToken_plain _ _ Hs Ht), (headerToken_extra _ _ extra Hs Ht).
  by rewrite (eqb_nonempty _ Hne), Hverify.
Qed.

Lemma authMiddleware_accepts_witness :
  authMiddleware toy (Some ("Token" +:+ " " +:+ "jwt.ann")) getCart
    {| db := shop_with_cart; faults := []; trace := [] |}
  = getCart "ann" {| db := shop_with_cart; faults := []; trace := [] |}
  ∧ authMiddleware toy (Some ("Token" +:+ " " +:+ "jwt.ann" +:+ " " +:+ "and more")) getCart
      {| db := shop_with_cart; faults := []; trace := [] |}
    = getCart "ann" {| db := shop_with_cart; faults := []; trace := [] |}.
Proof.
  apply (authMiddleware_accepts toy "Token" "jwt.ann" "and more" "ann" getCart).
  - reflexivity.
  - reflexivity.
  - discriminate.
  - reflexivity.
Defined.

(** X12. A request with no [Authorization] header, with a header that
    contains no space, or with a header whose first space is the last
    character or is followed by another space, is answered 401 "Access
    denied. No token provided" (Unauthorized); the token is not verified
    and the route is not run: the world is untouched. *)
Theorem authMiddleware_no_token (L : Libraries) (authorization : option string)
    (next : string → World → Response * World) (w : World) :
  (authorization = None
   ∨ (∃ header, authorization = Some header ∧ noSpace header = true)
   ∨ (∃ scheme, authorization = Some (scheme +:+ " " +:+ "") ∧ noSpace scheme = true)
   ∨ (∃ scheme rest, authorization = Some (scheme +:+ " " +:+ "" +:+ " " +:+ rest)
                     ∧ noSpace scheme = true)) →
  authMiddleware L authorization next w
  = (json 401 (Message "Access denied. No token provided"), w)
  ∧ errorKind (fst (authMiddleware L authorization next w)) = Some Unauthorized.
Proof.
  intros Hcases.
  assert (authMiddleware L authorization next w
          = (json 401 (Message "Access denied. No token provided"), w)) as ->; [|done].
  unfold authMiddleware.
  destruct Hcases as [->|[(h & -> & Hh)|[(scheme & -> & Hs)|(scheme & rest & -> & Hs)]]].
  - done.
  - unfold headerToken. by rewrite (str_split_noSpace _ Hh).
  - by rewrite (headerToken_plain scheme "" Hs eq_refl).
  - by rewrite (headerToken_extra scheme "" rest Hs eq_refl).
Qed.

Lemma authMiddleware_no_token_witness :
  authMiddleware toy (Some "jwt.ann") sampleCheckout
    {| db := shop_with_cart; faults := []; trace := [] |}
  = (json 401 (Message "Access denied. No token provided"),
     {| db := shop_with_cart; faults := []; trace := [] |})
  ∧ errorKind (fst (authMiddleware toy (Some "jwt.ann") sampleCheckout
                      {| db := shop_with_cart; faults := []; trace := [] |}))
    = Some Unauthorized.
Proof.
  apply (authMiddleware_no_token toy (Some "jwt.ann") sampleCheckout).
  right. left. exists "jwt.ann". split; reflexivity.
Defined.

(** X13. A request whose header carries a token that does not verify is
    answered 401 "Invalid token" (Unauthorized), and the route is not run:
    the world is untouched. *)
Theorem authMiddleware_invalid_token (L : Libraries) (scheme token : string)
    (next : string → World → Response * World) (w : World) :
  noSpace scheme = true →
  noSpace token = true →
  token ≠ "" →
  jwt_verify L token = None →
  authMiddleware L (Some (scheme +:+ " " +:+ token)) next w
  = (json 401 (Message "Invalid token"), w)
  ∧ errorKind (fst (authMiddleware L (Some (scheme +:+ " " +:+ token)) next w))
    = Some Unauthorized.
Proof.
  intros Hs Ht Hne Hverify.
  assert (authMiddleware L (Some (scheme +:+ " " +:+ token)) next w
          = (json 401 (Message "Invalid token"), w)) as ->; [|done].
  unfold authMiddleware. rewrite (headerToken_plain _ _ Hs Ht).
  by rewrite (eqb_nonempty _ Hne), Hverify.
Qed.

Lemma authMiddleware_invalid_token_witness :
  authMiddleware toy (Some ("Bearer" +:+ " " +:+ "forged")) sampleCheckout
    {| db := shop_with_cart; faults := []; trace := [] |}
  = (json 401 (Message "Invalid token"), {| db := shop_with_cart; faults := []; trace := [] |})
  ∧ errorKind (fst (authMiddleware toy (Some ("Bearer" +:+ " " +:+ "forged")) sampleCheckout
                      {| db := shop_with_cart; faults := []; trace := [] |}))
    = Some Unauthorized.
Proof.
  apply (authMiddleware_invalid_token toy "Bearer" "forged" sampleCheckout).
  - reflexivity.
  - reflexivity.
  - discriminate.
  - reflexivity.
Defined.

(** ** POST /signup and POST /login *)

Lemma findUser_app_new email us u :
  findUser email us = None → user_email u = email → findUser email (us ++ [u]) = Some u.
Proof.
  unfold findUser. intros Hnone Hu.
  destruct (list_find _ us) as [[j v]|] eqn:Hfind; [done|].
  rewrite list_find_app_r by done. simpl. by rewrite decide_True.
Qed.

Lemma findUser_app_old email us u v :
  findUser email us = Some v → findUser email (us ++ [u]) = Some v.
Proof.
  unfold findUser. destruct (list_find _ us) as [[j x]|] eqn:Hfind; [|done].
  intros [= ->]. by rewrite (list_find_app_l _ _ _ _ _ Hfind).
Qed.

Lemma findUser_app_other email us u :
  user_email u ≠ email → findUser email (us ++ [u]) = findUser email us.
Proof.
  intros Hne. destruct (findUser email us) as [v|] eqn:Hfind.
  - by apply findUser_app_old.
  - unfold findUser in *. destruct (list_find _ us) as [[j x]|] eqn:Hl; [done|].
    rewrite list_find_app_r by done. simpl. by rewrite decide_False.
Qed.

Lemma findUser_None email us :
  findUser email us = None → ∀ u, u ∈ us → user_email u ≠ email.
Proof.
  unfold findUser. destruct (list_find _ us) as [[j x]|] eqn:Hfind; [done|].
  intros _. rewrite list_find_None, Forall_forall in Hfind. done.
Qed.

(** What a signup leaves: the users as they were, or one more user with the
    requested email, which nobody had. *)
Lemma signup_runs L uuid salt name email password fs us :
  snd (signup L uuid salt name email password fs us) = us
  ∨ (findUser email us = None
     ∧ snd (signup L uuid salt name email password fs us)
       = us ++ [ {| user_id := uuid; user_name := name; user_email := email;
                    user_password := bcrypt_hash L salt password |} ]).
Proof.
  unfold signup. destruct (rejected fs); [by left|].
  destruct (findUser email us) eqn:Hfind; [by left|].
  destruct (rejected (tail fs)); [by left|by right].
Qed.

(** X14. Signup keeps emails unique, whichever persistence calls are
    rejected: if no two users have the same email before a signup, none have
    after it; and a signup for an email that is already registered answers
    400 "Email already exists" and stores nothing. *)
Theorem signup_keeps_emails_unique (L : Libraries) (uuid salt name email password : string)
    (fs : list bool) (us : list User) :
  NoDup (user_email <$> us) →
  NoDup (user_email <$> snd (signup L uuid salt name email password fs us))
  ∧ (is_Some (findUser email us) →
     signup L uuid salt name email password [] us
     = (account 400 (AccountMessage "Email already exists"), us)).
Proof.
  intros Hnodup. split.
  - destruct (signup_runs L uuid salt name email password fs us) as [->|[Hnone ->]]; [done|].
    rewrite fmap_app. simpl. apply NoDup_app. split_and!; [done| |apply NoDup_singleton].
    intros e He ->%list_elem_of_singleton.
    apply list_elem_of_fmap in He as (u & Hu & Hin).
    by apply (findUser_None _ _ Hnone u Hin).
  - intros [u Hu]. unfold signup. simpl. by rewrite Hu.
Qed.

Lemma signup_keeps_emails_unique_witness :
  NoDup (user_email <$> snd (signup toy "id-2" "salt" "Ann" "ann@example.org" "secret" []
                               (snd (signup toy "id-1" "salt" "Ann" "ann@example.org" "hunter2" [] []))))
  ∧ (is_Some (findUser "ann@example.org"
                (snd (signup toy "id-1" "salt" "Ann" "ann@example.org" "hunter2" [] []))) →
     signup toy "id-2" "salt" "Ann" "ann@example.org" "secret" []
       (snd (signup toy "id-1" "salt" "Ann" "ann@example.org" "hunter2" [] []))
     = (account 400 (AccountMessage "Email already exists"),
        snd (signup toy "id-1" "salt" "Ann" "ann@example.org" "hunter2" [] []))).
Proof.
  apply (signup_keeps_emails_unique toy "id-2" "salt" "Ann" "ann@example.org" "secret" []).
  vm_compute. repeat constructor. intros H. inversion H.
Defined.

(** X15. A signup for a free email followed by a login with the same email
    and password, when the password library recognises the password in its
    own hash, answers 200 with the user id generated at signup and a token
    signed for it; a login with a password the library does not recognise
    in that hash answers 400 "Invalid password". *)
Theorem signup_then_login (L : Libraries) (uuid salt name email password : string)
    (us : list User) :
  findUser email us = None →
  bcrypt_compare L password (bcrypt_hash L salt password) = true →
  fst (signup L uuid salt name email password [] us)
    = account 201 (AccountMessage "User created successfully")
  ∧ login L email password [] (snd (signup L uuid salt name email password [] us))
    = account 200 (Session (jwt_sign L uuid) uuid)
  ∧ ∀ other, bcrypt_compare L other (bcrypt_hash L salt password) = false →
      login L email other [] (snd (signup L uuid salt name email password [] us))
      = account 400 (AccountMessage "Invalid password").
Proof.
  intros Hnone Hcompare.
  assert (signup L uuid salt name email password [] us
          = (account 201 (AccountMessage "User created successfully"),
             us ++ [ {| user_id := uuid; user_name := name; user_email := email;
                        user_password := bcrypt_hash L salt password |} ])) as ->.
  { unfold signup. simpl. by rewrite Hnone. }
  split; [done|]. unfold login. simpl.
  rewrite (findUser_app_new email us
             {| user_id := uuid; user_name := name; user_email := email;
                user_password := bcrypt_hash L salt password |} Hnone eq_refl). simpl. split.
  - by rewrite Hcompare.
  - intros other Hother. by rewrite Hother.
Qed.

Lemma signup_then_login_witness :
  fst (signup toy "id-1" "salt" "Ann" "ann@example.org" "hunter2" [] [])
    = account 201 (AccountMessage "User created successfully")
  ∧ login toy "ann@example.org" "hunter2" []
      (snd (signup toy "id-1" "salt" "Ann" "ann@example.org" "hunter2" [] []))
    = account 200 (Session (jwt_sign toy "id-1") "id-1")
  ∧ ∀ other, bcrypt_compare toy other (bcrypt_hash toy "salt" "hunter2") = false →
      login toy "ann@example.org" other []
        (snd (signup toy "id-1" "salt" "Ann" "ann@example.org" "hunter2" [] []))
      = account 400 (AccountMessage "Invalid password").
Proof.
  apply (signup_then_login toy "id-1" "salt" "Ann" "ann@example.org" "hunter2" []).
  - reflexivity.
  - vm_compute. reflexivity.
Defined.

(** X16. A signup never disturbs the accounts that exist: whatever it is
    asked and whichever of its persistence calls are rejected, every
    registered email then logs in exactly as before. *)
Theorem signup_keeps_existing_logins (L : Libraries)
    (uuid salt name email password email' password' : string)
    (fs fs' : list bool) (us : list User) :
  is_Some (findUser email' us) →
  login L email' password' fs' (snd (signup L uuid salt name email password fs us))
  = login L email' password' fs' us.
Proof.
  intros [u Hu].
  destruct (signup_runs L uuid salt name email password fs us) as [->|[_ ->]]; [done|].
  unfold login. by rewrite (findUser_app_old _ _ _ _ Hu), Hu.
Qed.

Lemma signup_keeps_existing_logins_witness :
  login toy "ann@example.org" "hunter2" []
    (snd (signup toy "id-2" "pepper" "Bob" "bob@example.org" "secret" []
            (snd (signup toy "id-1" "salt" "Ann" "ann@example.org" "hunter2" [] []))))
  = login toy "ann@example.org" "hunter2" []
      (snd (signup toy "id-1" "salt" "Ann" "ann@example.org" "hunter2" [] [])).
Proof.
  apply (signup_keeps_existing_logins toy "id-2" "pepper" "Bob" "bob@example.org" "secret"
           "ann@example.org" "hunter2" [] []).
  vm_compute. eexists. reflexivity.
Defined.

(** X17. From signup to an authenticated request: after a signup for a free
    email, the token of the following login, sent as "Bearer <token>", takes
    the request through the middleware to the route, which runs as the user
    id generated at signup; this holds when the libraries recognise the
    password in its hash and the token in its verification, the token being
    a non-empty string without spaces. *)
Theorem signup_login_then_authenticated (L : Libraries)
    (uuid salt name email password : string) (us : list User)
    (next : string → World → Response * World) (w : World) :
  findUser email us = None →
  bcrypt_compare L password (bcrypt_hash L salt password) = true →
  jwt_verify L (jwt_sign L uuid) = Some uuid →
  noSpace (jwt_sign L uuid) = true →
  jwt_sign L uuid ≠ "" →
  authMiddleware L
    (bearer (login L email password [] (snd (signup L uuid salt name email password [] us))))
    next w
  = next uuid w.
Proof.
  intros Hnone Hcompare Hverify Hspace Hne.
  assert (bearer (login L email password [] (snd (signup L uuid salt name email password [] us)))
          = Some ("Bearer" +:+ " " +:+ jwt_sign L uuid)) as ->.
  { unfold signup, login. simpl. rewrite Hnone. simpl.
    rewrite (findUser_app_new email us
               {| user_id := uuid; user_name := name; user_email := email;
                  user_password := bcrypt_hash L salt password |} Hnone eq_refl).
    simpl. by rewrite Hcompare. }
  unfold authMiddleware.
  rewrite (headerToken_plain "Bearer" _ eq_refl Hspace).
  by rewrite (eqb_nonempty _ Hne), Hverify.
Qed.

Lemma signup_login_then_authenticated_witness :
  authMiddleware toy
    (bearer (login toy "ann@example.org" "hunter2" []
               (snd (signup toy "id-1" "salt" "Ann" "ann@example.org" "hunter2" [] []))))
    getCart {| db := shop; faults := []; trace := [] |}
  = getCart "id-1" {| db := shop; faults := []; trace := [] |}.
Proof.
  apply (signup_login_then_authenticated toy "id-1" "salt" "Ann" "ann@example.org" "hunter2" []
           getCart).
  - reflexivity.
  - vm_compute. reflexivity.
  - vm_compute. reflexivity.
  - vm_compute. reflexivity.
  - vm_compute. discriminate.
Defined.

(** ** GET /api/products and POST /api/products *)

Lemma findProducts_elem query ps p :
  p ∈ findProducts query ps ↔ ps !! _id p = Some (doc p) ∧ matchesQuery query p = true.
Proof.
  unfold findProducts. rewrite list_elem_of_filter, list_elem_of_fmap. split.
  - intros [Hm ([id x] & -> & Hin%elem_of_map_to_list)]. done.
  - intros [Hp Hm]. split; [done|]. exists (_id p, doc p). split; [by destruct p|].
    by apply elem_of_map_to_list.
Qed.

(** X18. The product listing answers 200 with exactly the products of the
    catalog when the [category] parameter is absent or empty, and with
    exactly the products whose category is the parameter otherwise; it never
    writes, whichever persistence calls are rejected. *)
Theorem getProducts_filters_by_category (category : option string) (d : Db) :
  ∃ found,
    serveAs (getProducts category) [] d
    = (catalog 200 (ProductList found), {| db := d; faults := []; trace := [] |})
    ∧ (∀ p, p ∈ found ↔
            products d !! _id p = Some (doc p)
            ∧ match category with
              | None => True
              | Some c => c = "" ∨ product_category (doc p) = c
              end)
    ∧ ∀ fs, db (snd (serveAs (getProducts category) fs d)) = d
            ∧ trace (snd (serveAs (getProducts category) fs d)) = [].
Proof.
  exists (findProducts (categoryQuery category) (products d)). split_and!.
  - done.
  - intros p. rewrite findProducts_elem. apply and_iff_compat_l.
    destruct category as [c|]; simpl; [|done].
    destruct (String.eqb_spec c "") as [->|Hc]; simpl.
    + split; [by left|done].
    + rewrite String.eqb_eq. split; [by right|]. by intros [?|?].
  - intros fs. unfold getProducts. run_route. by destruct (rejected fs).
Qed.

(** X19. A product without a category (missing or empty) is refused: the
    route answers 500 "Error creating product" before any persistence call
    is made, and the database is unchanged. *)
Theorem createProduct_requires_category (newId : ObjectId) (fields : Product)
    (fs : list bool) (d : Db) :
  product_category fields = "" →
  serveAs (createProduct newId fields) fs d
  = (catalog 500 (CatalogFailure "Error creating product"),
     {| db := d; faults := fs; trace := [] |}).
Proof.
  intros Hempty. unfold createProduct, validateProduct. run_route. by rewrite Hempty.
Qed.

Lemma createProduct_requires_category_witness :
  serveAs (createProduct P3 {| product_name := Some "plum"; product_description := None;
                               product_price := Some 3%float;
                               product_quantity := Some 7%float;
                               product_image := Some "plum"; product_category := "" |}) [] shop
  = (catalog 500 (CatalogFailure "Error creating product"),
     {| db := shop; faults := []; trace := [] |}).
Proof.
  apply (createProduct_requires_category P3
           {| product_name := Some "plum"; product_description := None;
              product_price := Some 3%float; product_quantity := Some 7%float;
              product_image := Some "plum"; product_category := "" |} [] shop).
  reflexivity.
Defined.

Lemma createProduct_run newId fields d :
  product_category fields ≠ "" →
  products d !! newId = None →
  serveAs (createProduct newId fields) [] d
  = (catalog 201 (ProductCreated {| _id := newId; doc := fields |}),
     {| db := {| products := <[newId := fields]> (products d);
                 carts := carts d; orders := orders d |};
        faults := [];
        trace := [ {| products := <[newId := fields]> (products d);
                      carts := carts d; orders := orders d |} ] |}).
Proof.
  intros Hcat Hfresh. unfold createProduct, validateProduct, insertProduct. run_route.
  rewrite (eqb_nonempty _ Hcat). simpl. by rewrite Hfresh.
Qed.

(** X20. A product with a category, created under an id no product has, is
    answered 201 and is then in the catalog: the listing of its category
    contains it, the products that were there are unchanged, carts and
    orders are untouched, and a request to add a numeric quantity of it to
    a cart by the printed form of its id is answered 200, the quantity the
    cart line would then hold being a number. *)
Theorem createProduct_then_available (newId : ObjectId) (fields : Product) (d : Db)
    (userId : string) (quantity : float) :
  product_category fields ≠ "" →
  products d !! newId = None →
  canonical newId →
  is_nan (bumpedQuantity quantity (linesFor newId (userItems userId d))) = false →
  fst (serveAs (createProduct newId fields) [] d)
    = catalog 201 (ProductCreated {| _id := newId; doc := fields |})
  ∧ (∃ found,
        fst (serveAs (getProducts (Some (product_category fields))) []
               (db (snd (serveAs (createProduct newId fields) [] d))))
        = catalog 200 (ProductList found)
        ∧ {| _id := newId; doc := fields |} ∈ found)
  ∧ (∀ id, id ≠ newId →
        products (db (snd (serveAs (createProduct newId fields) [] d))) !! id = products d !! id)
  ∧ carts (db (snd (serveAs (createProduct newId fields) [] d))) = carts d
  ∧ orders (db (snd (serveAs (createProduct newId fields) [] d))) = orders d
  ∧ status (fst (serve (addItem userId (toString newId) (Num quantity)) []
                   (db (snd (serveAs (createProduct newId fields) [] d))))) = 200.
Proof.
  intros Hcat Hfresh Hcan Hnum. rewrite (createProduct_run newId fields d Hcat Hfresh).
  cbn [fst snd db]. split_and!.
  - done.
  - eexists. split; [reflexivity|]. apply findProducts_elem. simpl. split.
    + apply lookup_insert_eq.
    + rewrite (eqb_nonempty _ Hcat). apply String.eqb_refl.
  - intros id Hne. simpl. by rewrite lookup_insert_ne.
  - done.
  - done.
  - edestruct (addItem_canonical_lines userId newId quantity) as (items' & w & -> & _).
    + done.
    + simpl. rewrite lookup_insert_eq. by eexists.
    + done.
    + done.
Qed.

Lemma createProduct_then_available_witness :
  fst (serveAs (createProduct P3 (grocery "plum" 3)) [] shop)
    = catalog 201 (ProductCreated {| _id := P3; doc := grocery "plum" 3 |})
  ∧ (∃ found,
        fst (serveAs (getProducts (Some (product_category (grocery "plum" 3)))) []
               (db (snd (serveAs (createProduct P3 (grocery "plum" 3)) [] shop))))
        = catalog 200 (ProductList found)
        ∧ {| _id := P3; doc := grocery "plum" 3 |} ∈ found)
  ∧ (∀ id, id ≠ P3 →
        products (db (snd (serveAs (createProduct P3 (grocery "plum" 3)) [] shop))) !! id
        = products shop !! id)
  ∧ carts (db (snd (serveAs (createProduct P3 (grocery "plum" 3)) [] shop))) = carts shop
  ∧ orders (db (snd (serveAs (createProduct P3 (grocery "plum" 3)) [] shop))) = orders shop
  ∧ status (fst (serve (addItem "ann" (toString P3) (Num 2)) []
                   (db (snd (serveAs (createProduct P3 (grocery "plum" 3)) [] shop))))) = 200.
Proof.
  apply (createProduct_then_available P3 (grocery "plum" 3) shop "ann" 2).
  - discriminate.
  - vm_compute. reflexivity.
  - reflexivity.
  - reflexivity.
Defined.

(** ** Product ids as the catalog prints them *)

(** X21. A [productId] that casts to an ObjectId no product of the catalog
    carries is answered 404 "Product not found" (NotFound), and nothing is
    written, whichever persistence calls are rejected: no cart is created
    and no line is added or changed. *)
Theorem addItem_unknown_id_not_found (userId productId : string) (id : ObjectId)
    (quantity : Quantity) (d : Db) :
  castObjectId productId = Some id →
  products d !! id = None →
  fst (serve (addItem userId productId quantity) [] d) = json 404 (Message "Product not found")
  ∧ errorKind (fst (serve (addItem userId productId quantity) [] d)) = Some NotFound
  ∧ ∀ fs, db (snd (serve (addItem userId productId quantity) fs d)) = d
          ∧ trace (snd (serve (addItem userId productId quantity) fs d)) = [].
Proof.
  intros Hid Hnone.
  assert (referenced productId d = None) as Href by (unfold referenced; by rewrite Hid).
  destruct (addItem_unknown_product_fails userId productId quantity d Href) as (Hr & Hk & Hframe).
  rewrite Hid in Hr, Hk. done.
Qed.

Lemma addItem_unknown_id_not_found_witness :
  fst (serve (addItem "ann" "64B7F0A1C2D3E4F5A6B7C8D3" (Num 1)) [] shop_with_cart)
    = json 404 (Message "Product not found")
  ∧ errorKind (fst (serve (addItem "ann" "64B7F0A1C2D3E4F5A6B7C8D3" (Num 1)) [] shop_with_cart))
    = Some NotFound
  ∧ ∀ fs, db (snd (serve (addItem "ann" "64B7F0A1C2D3E4F5A6B7C8D3" (Num 1)) fs shop_with_cart))
          = shop_with_cart
          ∧ trace (snd (serve (addItem "ann" "64B7F0A1C2D3E4F5A6B7C8D3" (Num 1)) fs shop_with_cart)) = [].
Proof.
  apply (addItem_unknown_id_not_found "ann" "64B7F0A1C2D3E4F5A6B7C8D3" P3 (Num 1) shop_with_cart).
  - vm_compute. reflexivity.
  - vm_compute. reflexivity.
Defined.

(** X22. When every request names the product by the printed form of its
    id and carries a numeric quantity, additions merge: starting from a cart
    (or no cart) without a line for the product, any non-empty run of
    additions in which the first quantity and every running sum are numbers
    is answered 200 throughout and leaves exactly one line for the product,
    whose quantity is the quantities added up in request order in
    double-precision arithmetic, starting from the first. *)
Theorem addItems_merge_into_one_line (userId : string) (id : ObjectId)
    (quantities : list float) (d : Db) :
  canonical id →
  is_Some (products d !! id) →
  linesFor id (userItems userId d) = [] →
  quantities ≠ [] →
  numericRun quantities = true →
  Forall (λ r, status r = 200) (addItems userId (toString id) quantities d).1
  ∧ linesFor id (userItems userId (addItems userId (toString id) quantities d).2)
    = [line id (total quantities)].
Proof. apply addItems_canonical_single_line. Qed.

Lemma addItems_merge_into_one_line_witness :
  Forall (λ r, status r = 200)
    (addItems "bob" (toString P1) [9007199254740992; 1; 0.5]%float shop_with_cart).1
  ∧ linesFor P1 (userItems "bob"
                   (addItems "bob" (toString P1) [9007199254740992; 1; 0.5]%float
                      shop_with_cart).2)
    = [line P1 (total [9007199254740992; 1; 0.5]%float)].
Proof.
  apply (addItems_merge_into_one_line "bob" P1 [9007199254740992; 1; 0.5]%float shop_with_cart).
  - reflexivity.
  - vm_compute. eexists. reflexivity.
  - reflexivity.
  - discriminate.
  - reflexivity.
Defined.

(** The running sum is the route's, not the exact one: adding 1 to 2^53
    leaves 2^53. *)
Example total_is_rounded :
  total [9007199254740992; 1]%float = 9007199254740992%float
  ∧ total [0.1; 0.2]%float ≠ 0.3%float.
Proof. split; [reflexivity|]. vm_compute. discriminate. Qed.

(** X23. When the request names the product by the printed form of its id,
    a cart that holds at most one line per product still does after the
    addition. *)
Theorem addItem_keeps_one_line_per_product (userId : string) (id : ObjectId)
    (quantity : Quantity) (d : Db) (id' : ObjectId) :
  canonical id →
  is_Some (products d !! id) →
  (∀ other, length (linesFor other (userItems userId d)) ≤ 1)%nat →
  (length (linesFor id'
             (userItems userId
                (db (snd (serve (addItem userId (toString id) quantity) [] d))))) ≤ 1)%nat.
Proof.
  intros Hcan _ Hone.
  destruct (addItem_runs userId (toString id) quantity [] d)
    as [(-> & _)|(items' & Hmerge & -> & _)]; [done|].
  rewrite findOne_saveCart.
  destruct (merge_item_lines id quantity (userItems userId d) items' Hcan Hmerge)
    as [Hsame Hother].
  destruct (decide (id' = id)) as [->|Hne]; [|by rewrite Hother].
  specialize (Hone id).
  destruct (linesFor id (userItems userId d)) as [|x rest].
  - destruct Hsame as (pushed & _ & ->). simpl. lia.
  - destruct Hsame as (merged & _ & ->). done.
Qed.

Lemma addItem_keeps_one_line_per_product_witness :
  (length (linesFor P1
             (userItems "ann"
                (db (snd (serve (addItem "ann" (toString P1) (Num 2)) [] shop_with_cart))))) ≤ 1)%nat.
Proof.
  apply (addItem_keeps_one_line_per_product "ann" P1 (Num 2) shop_with_cart P1).
  - reflexivity.
  - vm_compute. eexists. reflexivity.
  - intros other. unfold linesFor. change (userItems "ann" shop_with_cart) with [line P1 3; line P2 1].
    rewrite !filter_cons, filter_nil. simpl.
    destruct (decide (P1 = other)) as [HP1|?]; destruct (decide (P2 = other)) as [HP2|?];
      simpl; try lia. rewrite <- HP1 in HP2. discriminate HP2.
Defined.
